(** * ipython-mcp: the kernel session manager of [src/ipython_mcp/server.py]

    A shallow embedding of the tool functions of the server
    ([resolve_connection_file], [start_kernel], [connect_to_kernel],
    [execute_code], [kernel_status], [disconnect_kernel],
    [shutdown_kernel], [interrupt_kernel]), the properties of the
    specification that are stated about them and further properties read
    off the code.

    Conventions of the embedding.
    - A Python [str] is the list of its code points ([pystr]).
    - The dictionaries handled by the server come from JSON documents and
      protocol messages; they are values of [pyval].
    - The two module globals [kernel_client] and [kernel_process] are the
      first two fields of [State]; client objects live in a heap indexed by
      handle, together with the list of calls made on the handles so far.
    - What a call into [jupyter_client], [subprocess], [os] or the file
      system answers is not decided by the server: each tool takes a record
      of the answers the outside world gives during that call. A call on a
      client object changes the object when it returns normally and leaves
      it as it was when it raises.
    - The reads of the drain loop of [execute_code] are a finite list of
      answers; once it is used up the next read times out.
    - The text of [str(v)] for an object that is not a string and of
      [str(e)] for an exception raised by the interpreter itself, and the
      platform flag, are parameters of the tools.
    The tool functions are called one at a time on the shared state
    ([run_session]). *)

From Stdlib Require Import ZArith NArith List Lia String Ascii Bool DecimalString.
From stdpp Require Import base numbers list option.

(** ** Python strings *)

Abbreviation pystr := (list N).

Fixpoint lit (s : string) : pystr :=
  match s with
  | EmptyString => []
  | String c r => N_of_ascii c :: lit r
  end.
Arguments lit s%_string : simpl never.

(** U+274C CROSS MARK, U+2705 WHITE HEAVY CHECK MARK, U+26A0 U+FE0F WARNING
    SIGN, U+1F4C1 FILE FOLDER, U+1F511 KEY: the markers of the reports. *)
Definition CROSS : pystr := [10060%N].
Definition CHECK : pystr := [9989%N].
Definition WARNING : pystr := [9888%N; 65039%N].
Definition FOLDER : pystr := [128193%N].
Definition KEY : pystr := [128273%N].
Definition NL : pystr := [10%N].

(** [str.isspace] on one code point (CPython's [_PyUnicode_IsWhitespace]). *)
Definition py_isspace (c : N) : bool :=
  ((9 <=? c) && (c <=? 13) || (28 <=? c) && (c <=? 32)
   || (c =? 133) || (c =? 160) || (c =? 5760)
   || (8192 <=? c) && (c <=? 8202)
   || (c =? 8232) || (c =? 8233) || (c =? 8239) || (c =? 8287)
   || (c =? 12288))%N.

Fixpoint lstrip (s : pystr) : pystr :=
  match s with
  | [] => []
  | c :: r => if py_isspace c then lstrip r else s
  end.

Definition rstrip (s : pystr) : pystr := rev (lstrip (rev s)).

(** [s.strip()] *)
Definition strip (s : pystr) : pystr := rstrip (lstrip s).

Fixpoint is_prefix (p s : pystr) : bool :=
  match p, s with
  | [], _ => true
  | _ :: _, [] => false
  | a :: p', b :: s' => (a =? b)%N && is_prefix p' s'
  end.

(** [remove_from old skip s]: scan [s] left to right, dropping [skip]
    pending code points of a match already found, then every further
    non-overlapping occurrence of [old]. *)
Fixpoint remove_from (old : pystr) (skip : nat) (s : pystr) : pystr :=
  match s with
  | [] => []
  | c :: r =>
      match skip with
      | S k => remove_from old k r
      | O => if is_prefix old s
             then remove_from old (length old - 1) r
             else c :: remove_from old 0 r
      end
  end.

(** [s.replace(old, '')] *)
Definition remove_all (old s : pystr) : pystr :=
  match old with
  | [] => s
  | _ :: _ => remove_from old 0 s
  end.

(** [needle in hay] on strings *)
Fixpoint contains (needle hay : pystr) : bool :=
  match hay with
  | [] => is_prefix needle []
  | _ :: rest => is_prefix needle hay || contains needle rest
  end.

(** [sep.join(parts)] on a list of strings *)
Fixpoint str_join (sep : pystr) (parts : list pystr) : pystr :=
  match parts with
  | [] => []
  | p :: rest =>
      match rest with
      | [] => p
      | _ :: _ => p ++ sep ++ str_join sep rest
      end
  end.

(** U+0022 QUOTATION MARK *)
Definition DQUOTE : pystr := [34%N].

(** ** Python values *)

#[warnings="-register-all"]
Inductive pyval : Type :=
| PNone
| PBool (b : bool)
| PInt (n : Z)
| PFloat (bits : Z)          (* the IEEE-754 binary64 pattern *)
| PStr (s : pystr)
| PList (items : list pyval)
| PDict (entries : list (pystr * pyval)).

(** Truth value of an object in [if v:]. *)
Definition truthy (v : pyval) : bool :=
  match v with
  | PNone => false
  | PBool b => b
  | PInt n => negb (n =? 0)%Z
  | PFloat bits => negb (Z.land bits (2 ^ 63 - 1) =? 0)%Z
  | PStr s => match s with [] => false | _ => true end
  | PList l => match l with [] => false | _ => true end
  | PDict d => match d with [] => false | _ => true end
  end.

(** [v == s] for a string constant [s]: none of the other JSON types
    compares equal to a string. *)
Definition eq_str (v : pyval) (s : pystr) : bool :=
  match v with
  | PStr t => bool_decide (t = s)
  | _ => false
  end.

Fixpoint dict_lookup (k : pystr) (d : list (pystr * pyval)) : option pyval :=
  match d with
  | [] => None
  | (k', v) :: r => if bool_decide (k' = k) then Some v else dict_lookup k r
  end.

(** ** Exceptions and results *)

Inductive type_error : Type :=
| NotSubscriptable | NotSliceable | NotIterable | JoinItem (index : nat).

Inductive exn : Type :=
| LibraryError (message : pystr)   (* raised below the server; str(e) = message *)
| TimeoutExpired (message : pystr) (* subprocess.TimeoutExpired *)
| AttributeError (obj : pyval) (attr : pystr)
| KeyError (key : pystr)
| TypeError (kind : type_error) (obj : pyval).

Inductive result (A : Type) : Type :=
| Ok (a : A)
| Raise (e : exn).
Arguments Ok {A} a.
Arguments Raise {A} e.

Definition rbind {A B} (r : result A) (k : A -> result B) : result B :=
  match r with
  | Ok a => k a
  | Raise e => Raise e
  end.

Notation "'try!' x ':=' r 'in' k" := (rbind r (fun x => k))
  (at level 10, x name, r at level 100, k at level 200).

Definition dict_get (d : list (pystr * pyval)) (k : pystr) (default : pyval) : pyval :=
  match dict_lookup k d with
  | Some x => x
  | None => default
  end.

(** [v.get(k, default)] *)
Definition py_get (v : pyval) (k : pystr) (default : pyval) : result pyval :=
  match v with
  | PDict d => Ok (dict_get d k default)
  | _ => Raise (AttributeError v (lit "get"))
  end.

(** [v[k]] for a string key *)
Definition py_getitem (v : pyval) (k : pystr) : result pyval :=
  match v with
  | PDict d => match dict_lookup k d with
               | Some x => Ok x
               | None => Raise (KeyError k)
               end
  | _ => Raise (TypeError NotSubscriptable v)
  end.

(** [v[:n]] *)
Definition py_slice_to (n : nat) (v : pyval) : result pyval :=
  match v with
  | PStr s => Ok (PStr (firstn n s))
  | PList l => Ok (PList (firstn n l))
  | _ => Raise (TypeError NotSliceable v)
  end.

(** The items visited by [for x in v]. *)
Definition py_iter (v : pyval) : result (list pyval) :=
  match v with
  | PList l => Ok l
  | PStr s => Ok (map (fun c => PStr [c]) s)
  | PDict d => Ok (map (fun kv => PStr (fst kv)) d)
  | _ => Raise (TypeError NotIterable v)
  end.

(** [v.strip()] and [v.replace(old, '')]: string methods only. *)
Definition py_strip (v : pyval) : result pystr :=
  match v with
  | PStr s => Ok (strip s)
  | _ => Raise (AttributeError v (lit "strip"))
  end.

Definition py_remove (old : pystr) (v : pyval) : result pyval :=
  match v with
  | PStr s => Ok (PStr (remove_all old s))
  | _ => Raise (AttributeError v (lit "replace"))
  end.

(** ["\n".join(parts)] on a list of objects: the first item that is not a
    string raises [TypeError]. *)
Fixpoint py_join_from (i : nat) (sep : pystr) (parts : list pyval) : result pystr :=
  match parts with
  | [] => Ok []
  | PStr s :: rest =>
      match rest with
      | [] => Ok s
      | _ :: _ => try! t := py_join_from (S i) sep rest in Ok (s ++ sep ++ t)
      end
  | v :: _ => Raise (TypeError (JoinItem i) v)
  end.

Definition py_join (sep : pystr) (parts : list pyval) : result pystr :=
  py_join_from 0 sep parts.

(** ** Connection file resolution *)

(** What the process environment answers to [resolve_connection_file]:
    the value of [IPYTHON_MCP_CONNECTION], the path computed through
    [importlib.resources] (or the exception it raises) and the path next to
    [__file__]. *)
Record ResolveEnv : Type := {
  env_IPYTHON_MCP_CONNECTION : option pystr;
  resources_default : result pystr;
  module_dir_default : pystr;
}.

Definition nonempty (s : pystr) : bool :=
  match s with [] => false | _ :: _ => true end.

(** The bundled default: [resources.files(ipython_mcp) / 'default_connection.json'],
    or the file of that name next to the module when that raises. *)
Definition package_default (e : ResolveEnv) : pystr :=
  match resources_default e with
  | Ok p => p
  | Raise _ => module_dir_default e
  end.

(** [if x:] on an optional string: the string when it is given and not
    empty. *)
Definition if_set (x : option pystr) : option pystr :=
  match x with
  | Some (c :: r) => Some (c :: r)
  | Some [] => None
  | None => None
  end.

Definition resolve_connection_file (e : ResolveEnv) (connection_file : option pystr) : pystr :=
  match if_set connection_file with
  | Some explicit => explicit
  | None =>
      match if_set (env_IPYTHON_MCP_CONNECTION e) with
      | Some env_connection => env_connection
      | None => package_default e
      end
  end.

(** A candidate path that was not given, or given empty. *)
Definition unset (o : option pystr) : Prop := o = None ∨ o = Some [].

(** ** Session state *)

(** A [BlockingKernelClient] object: whether its channels are running and
    the connection info it was given. *)
Record Client : Type := {
  channels_running : bool;
  loaded_info : option pyval;
}.

(** A [subprocess.Popen] object. *)
Record Process : Type := {
  pid : Z;
}.

(** The calls that act on the resources behind a handle, in the order the
    server makes them. *)
Inductive Call : Type :=
| NewClient (h : nat)
| StopChannels (h : nat)
| LoadConnectionInfo (h : nat)
| StartChannels (h : nat)
| WaitForReady (h : nat)
| Shutdown (h : nat)
| Interrupt (h : nat)
| Terminate
| Wait (timeout : option Z)
| Kill
| SendSigint.

Record State : Type := {
  kernel_client : option nat;        (* global kernel_client: a handle into [clients] *)
  kernel_process : option Process;   (* global kernel_process *)
  clients : list Client;             (* the client objects created so far *)
  calls : list Call;                 (* calls made so far, oldest first *)
}.

Definition initial_state : State :=
  {| kernel_client := None; kernel_process := None; clients := []; calls := [] |}.

(** ** A state and exception monad for the tool bodies *)

Definition M (A : Type) : Type := State -> result A * State.

Definition ret {A} (a : A) : M A := fun s => (Ok a, s).

Definition bind {A B} (m : M A) (k : A -> M B) : M B := fun s =>
  match m s with
  | (Ok a, s') => k a s'
  | (Raise e, s') => (Raise e, s')
  end.

Definition lift {A} (r : result A) : M A := fun s => (r, s).

(** [try: m except Exception as e: handler e] *)
Definition catch {A} (m : M A) (handler : exn -> M A) : M A := fun s =>
  match m s with
  | (Ok a, s') => (Ok a, s')
  | (Raise e, s') => handler e s'
  end.

(** [try: m except subprocess.TimeoutExpired: handler] *)
Definition catch_timeout {A} (m : M A) (handler : M A) : M A := fun s =>
  match m s with
  | (Raise (TimeoutExpired _), s') => handler s'
  | other => other
  end.

(** Run [m] and hand its outcome to the continuation (a [try] whose body
    ends in [return] and whose handler falls through). *)
Definition attempt {A} (m : M A) : M (result A) := fun s =>
  match m s with
  | (r, s') => (Ok r, s')
  end.

Notation "'let!' x ':=' m 'in' k" := (bind m (fun x => k))
  (at level 10, x name, m at level 100, k at level 200).
Notation "m ';;' k" := (bind m (fun _ => k))
  (at level 100, k at level 200, right associativity).

Definition get_kernel_client : M (option nat) := fun s => (Ok (kernel_client s), s).
Definition get_kernel_process : M (option Process) := fun s => (Ok (kernel_process s), s).

(** The elementary changes of the state. *)
Definition set_client (c : option nat) (s : State) : State :=
  {| kernel_client := c; kernel_process := kernel_process s;
     clients := clients s; calls := calls s |}.

Definition record_call (c : Call) (s : State) : State :=
  {| kernel_client := kernel_client s; kernel_process := kernel_process s;
     clients := clients s; calls := calls s ++ [c] |}.

Definition alter_client (h : nat) (f : Client -> Client) (s : State) : State :=
  {| kernel_client := kernel_client s; kernel_process := kernel_process s;
     clients := alter f h (clients s); calls := calls s |}.

Definition add_client (c : Client) (s : State) : State :=
  {| kernel_client := kernel_client s; kernel_process := kernel_process s;
     clients := clients s ++ [c]; calls := calls s |}.

Definition fresh_client : Client :=
  {| channels_running := false; loaded_info := None |}.
Definition stopped (c : Client) : Client :=
  {| channels_running := false; loaded_info := loaded_info c |}.
Definition started (c : Client) : Client :=
  {| channels_running := true; loaded_info := loaded_info c |}.
Definition informed (info : pyval) (c : Client) : Client :=
  {| channels_running := channels_running c; loaded_info := Some info |}.

Definition set_kernel_client (c : option nat) : M unit := fun s =>
  (Ok tt, set_client c s).

Definition log (c : Call) : M unit := fun s => (Ok tt, record_call c s).

Definition update_client (h : nat) (f : Client -> Client) : M unit := fun s =>
  (Ok tt, alter_client h f s).

(** A call below the server: it is recorded, then it returns or raises as
    the outside world decides. *)
Definition extern {A} (c : Call) (outcome : result A) : M A :=
  log c ;; lift outcome.

(** [BlockingKernelClient()]: a fresh object, channels not running. *)
Definition new_client : M nat := fun s =>
  let h := length (clients s) in
  (Ok h, record_call (NewClient h) (add_client fresh_client s)).

(** [client.stop_channels()], [client.start_channels()],
    [client.load_connection_info(info)]: the object changes when the call
    returns normally. *)
Definition stop_channels (outcome : result unit) (h : nat) : M unit :=
  extern (StopChannels h) outcome ;; update_client h stopped.

Definition start_channels (outcome : result unit) (h : nat) : M unit :=
  extern (StartChannels h) outcome ;; update_client h started.

Definition load_connection_info (outcome : result unit) (h : nat) (info : pyval) : M unit :=
  extern (LoadConnectionInfo h) outcome ;; update_client h (informed info).

(** ** A concrete interpreter *)

Definition type_name (v : pyval) : pystr :=
  match v with
  | PNone => lit "NoneType"
  | PBool _ => lit "bool"
  | PInt _ => lit "int"
  | PFloat _ => lit "float"
  | PStr _ => lit "str"
  | PList _ => lit "list"
  | PDict _ => lit "dict"
  end.

Definition decimal (n : Z) : pystr := lit (NilZero.string_of_int (Z.to_int n)).

(** [str(v)] as CPython prints [None], booleans and integers; the examples
    format no other object that is not a string. *)
Definition example_repr (v : pyval) : pystr :=
  match v with
  | PNone => lit "None"
  | PBool true => lit "True"
  | PBool false => lit "False"
  | PInt n => decimal n
  | _ => []
  end.

(** [str(e)] as CPython 3.11 words the exceptions of the interpreter. *)
Definition example_exc_text (e : exn) : pystr :=
  match e with
  | LibraryError m => m
  | TimeoutExpired m => m
  | AttributeError obj attr =>
      lit "'" ++ type_name obj ++ lit "' object has no attribute '" ++ attr ++ lit "'"
  | KeyError key => lit "'" ++ key ++ lit "'"
  | TypeError (JoinItem i) obj =>
      lit "sequence item " ++ decimal (Z.of_nat i) ++ lit ": expected str instance, "
      ++ type_name obj ++ lit " found"
  | TypeError NotIterable obj => lit "'" ++ type_name obj ++ lit "' object is not iterable"
  | TypeError NotSubscriptable (PStr _) => lit "string indices must be integers, not 'str'"
  | TypeError NotSubscriptable (PList _) => lit "list indices must be integers or slices, not str"
  | TypeError NotSliceable (PDict _) => lit "unhashable type: 'slice'"
  | TypeError _ obj => lit "'" ++ type_name obj ++ lit "' object is not subscriptable"
  end.

(** ** The tools *)

Section Server.

(** The interpreter the server runs on: the text of [str(v)] for an object
    that is not a string, the text of [str(e)] for an exception the
    interpreter raises itself, and the platform test made at import. *)
Variable repr_text : pyval -> pystr.
Variable exc_text : exn -> pystr.
Variable IS_WINDOWS : bool.

(** [str(v)], as an f-string field formats [v]. *)
Definition py_str (v : pyval) : pystr :=
  match v with
  | PStr s => s
  | _ => repr_text v
  end.

(** [str(e)] *)
Definition exn_str (e : exn) : pystr :=
  match e with
  | LibraryError m => m
  | TimeoutExpired m => m
  | _ => exc_text e
  end.

(** *** execute_code *)

Definition ANSI_RED : pystr := 27%N :: lit "[0;31m".
Definition ANSI_RESET : pystr := 27%N :: lit "[0m".
Definition ANSI_BOLD_GREEN : pystr := 27%N :: lit "[1;32m".
Definition ANSI_GREEN : pystr := 27%N :: lit "[0;32m".

(** One line of a traceback with the four colour sequences removed. *)
Definition clean_line (line : pyval) : result pyval :=
  try! a := py_remove ANSI_RED line in
  try! b := py_remove ANSI_RESET a in
  try! c := py_remove ANSI_BOLD_GREEN b in
  py_remove ANSI_GREEN c.

Fixpoint clean_lines (lines : list pyval) : result (list pyval) :=
  match lines with
  | [] => Ok []
  | line :: rest =>
      try! clean := clean_line line in
      try! more := clean_lines rest in
      Ok (clean :: more)
  end.

(** The fragment appended for an [error] message. *)
Definition error_fragment (content : pyval) : result pyval :=
  try! error_name := py_get content (lit "ename") (PStr (lit "Error")) in
  try! error_value := py_get content (lit "evalue") (PStr []) in
  try! traceback := py_get content (lit "traceback") (PList []) in
  let error_msg := py_str error_name ++ lit ": " ++ py_str error_value in
  try! error_msg :=
    (if truthy traceback then
       try! lines := py_iter traceback in
       try! clean_traceback := clean_lines lines in
       try! joined := py_join NL clean_traceback in
       Ok (error_msg ++ NL ++ joined)
     else Ok error_msg) in
  Ok (PStr (CROSS ++ lit " " ++ error_msg)).

(** What one pass of the drain loop does with the message it read. *)
Inductive step : Type :=
| Skip                         (* next iteration, nothing appended *)
| Append (fragment : pyval)    (* output_parts.append(fragment) *)
| Stop.                        (* break *)

(** [msg.get('parent_header', {}).get('msg_id')] *)
Definition parent_msg_id (msg : pyval) : result pyval :=
  try! parent_header := py_get msg (lit "parent_header") (PDict []) in
  py_get parent_header (lit "msg_id") PNone.

Definition handle_message (msg_id : pystr) (msg : pyval) : result step :=
  try! parent_id := parent_msg_id msg in
  if negb (eq_str parent_id msg_id) then Ok Skip else
  try! msg_type := py_get msg (lit "msg_type") PNone in
  try! content := py_get msg (lit "content") (PDict []) in
  if eq_str msg_type (lit "stream") then
    try! text := py_get content (lit "text") (PStr []) in
    try! stream_text := py_strip text in
    if nonempty stream_text then Ok (Append (PStr stream_text)) else Ok Skip
  else if eq_str msg_type (lit "execute_result") then
    try! data := py_get content (lit "data") (PDict []) in
    try! result := py_get data (lit "text/plain") (PStr []) in
    if truthy result then Ok (Append result) else Ok Skip
  else if eq_str msg_type (lit "error") then
    try! fragment := error_fragment content in
    Ok (Append fragment)
  else if eq_str msg_type (lit "status") then
    try! state := py_get content (lit "execution_state") PNone in
    if eq_str state (lit "idle") then Ok Stop else Ok Skip
  else Ok Skip.

(** The drain loop. [polls] are the answers to the successive
    [get_iopub_msg(timeout=1)] calls; after the last of them the read times
    out ([queue.Empty]), which ends the loop like any other exception. *)
Fixpoint drain (msg_id : pystr) (polls : list (result pyval))
         (output_parts : list pyval) : list pyval :=
  match polls with
  | [] => output_parts
  | Raise _ :: _ => output_parts
  | Ok msg :: rest =>
      match handle_message msg_id msg with
      | Ok Skip => drain msg_id rest output_parts
      | Ok (Append fragment) => drain msg_id rest (output_parts ++ [fragment])
      | Ok Stop => output_parts
      | Raise _ => output_parts
      end
  end.

(** What the connected client answers during one [execute_code]. *)
Record ExecuteWorld : Type := {
  execute_answer : pystr -> result pystr;   (* kernel_client.execute(code) *)
  shell_answer : result pyval;              (* get_shell_msg(timeout=30) *)
  iopub_answers : list (result pyval);      (* get_iopub_msg(timeout=1), in order *)
}.

(** [reply['content']['status']] *)
Definition reply_status (reply : pyval) : result pyval :=
  try! content := py_getitem reply (lit "content") in
  py_getitem content (lit "status").

Definition NO_OUTPUT : pystr := CHECK ++ lit " Code executed successfully (no output)".

(** The report once the reply and the collected output are known. *)
Definition final_report (reply : pyval) (output_parts : list pyval) : result pystr :=
  try! status := reply_status reply in
  if eq_str status (lit "error") then
    try! error_info := py_getitem reply (lit "content") in
    try! ename := py_get error_info (lit "ename") (PStr (lit "Error")) in
    try! evalue := py_get error_info (lit "evalue") (PStr []) in
    let error_msg := py_str ename ++ lit ": " ++ py_str evalue in
    Ok (CROSS ++ lit " " ++ error_msg)
  else
    match output_parts with
    | [] => Ok NO_OUTPUT
    | _ :: _ => py_join NL output_parts
    end.

Definition NOT_CONNECTED_EXECUTE : pystr :=
  CROSS ++ lit " Not connected to kernel. Use connect_to_kernel() first.".

Definition execute_code (w : ExecuteWorld) (code : pystr) : M pystr :=
  let! client := get_kernel_client in
  match client with
  | None => ret NOT_CONNECTED_EXECUTE
  | Some _ =>
      catch
        (let! msg_id := lift (execute_answer w code) in
         let! reply := lift (shell_answer w) in
         let output_parts := drain msg_id (iopub_answers w) [] in
         lift (final_report reply output_parts))
        (fun e => ret (CROSS ++ lit " Execution failed: " ++ exn_str e))
  end.

(** *** kernel_status *)

Definition kernel_status (connection_info : result pyval) : M pystr :=
  let! client := get_kernel_client in
  match client with
  | None => ret (CROSS ++ lit " Not connected to any kernel")
  | Some _ =>
      catch
        (let! info := lift connection_info in
         let! ip := lift (py_getitem info (lit "ip")) in
         let! port := lift (py_getitem info (lit "shell_port")) in
         ret (CHECK ++ lit " Connected to kernel at " ++ py_str ip ++ lit ":" ++ py_str port))
        (fun _ => ret (CHECK ++ lit " Connected to kernel (connection details unavailable)"))
  end.

(** *** disconnect_kernel *)

Definition DISCONNECTED : pystr := CHECK ++ lit " Disconnected from kernel".

Definition disconnect_kernel (stop_answer : result unit) : M pystr :=
  catch
    (let! client := get_kernel_client in
     match client with
     | Some h =>
         stop_channels stop_answer h ;;
         set_kernel_client None ;;
         ret DISCONNECTED
     | None => ret DISCONNECTED
     end)
    (fun e => ret (CROSS ++ lit " Error during disconnection: " ++ exn_str e)).

(** *** connect_to_kernel *)

(** What the outside world answers during one [connect_to_kernel]. *)
Record ConnectWorld : Type := {
  resolve_env : ResolveEnv;
  expanduser : pystr -> result pystr;      (* str(Path(p).expanduser()) *)
  path_exists : pystr -> result bool;      (* Path.exists() *)
  json_load : pystr -> result pyval;       (* open(p, 'r') and json.load *)
  stop_answer : result unit;               (* stop_channels() of the stored client *)
  load_info_answer : result unit;          (* load_connection_info(info) *)
  start_answer : result unit;              (* start_channels() *)
  ready_answer : result unit;              (* wait_for_ready(timeout=5) *)
}.

Definition WINDOWS_NOTICE : pystr :=
  NL ++ WARNING ++ lit " Note: interrupt_kernel() not supported on Windows - use Ctrl+C in kernel window to interrupt execution".

Definition connected_report (connection_info : pyval) (connection_path : pystr) : result pystr :=
  let windows_notice := if IS_WINDOWS then WINDOWS_NOTICE else [] in
  try! ip := py_getitem connection_info (lit "ip") in
  try! port := py_getitem connection_info (lit "shell_port") in
  try! key := py_getitem connection_info (lit "key") in
  try! key8 := py_slice_to 8 key in
  Ok (CHECK ++ lit " Connected to IPython kernel at " ++ py_str ip ++ lit ":" ++ py_str port
      ++ NL ++ FOLDER ++ lit " Connection file: " ++ connection_path
      ++ NL ++ KEY ++ lit " Using key: " ++ py_str key8 ++ lit "..." ++ windows_notice).

Definition connect_to_kernel (w : ConnectWorld) (connection_file : option pystr) : M pystr :=
  catch
    (let resolved_file := resolve_connection_file (resolve_env w) connection_file in
     let! connection_path := lift (expanduser w resolved_file) in
     let! found := lift (path_exists w connection_path) in
     if negb found then
       ret (CROSS ++ lit " Connection file not found: " ++ connection_path)
     else
       let! connection_info := lift (json_load w connection_path) in
       let! previous := get_kernel_client in
       match previous with
       | Some old => stop_channels (stop_answer w) old
       | None => ret tt
       end ;;
       let! h := new_client in
       set_kernel_client (Some h) ;;
       load_connection_info (load_info_answer w) h connection_info ;;
       start_channels (start_answer w) h ;;
       let! ready := attempt (extern (WaitForReady h) (ready_answer w)) in
       match ready with
       | Raise e => ret (CROSS ++ lit " Failed to connect to kernel: " ++ exn_str e)
       | Ok _ => lift (connected_report connection_info connection_path)
       end)
    (fun e => ret (CROSS ++ lit " Failed to connect: " ++ exn_str e)).

(** *** shutdown_kernel *)

(** What the outside world answers during one [shutdown_kernel]. *)
Record ShutdownWorld : Type := {
  shutdown_answer : result unit;           (* kernel_client.shutdown() *)
  poll_answer : result (option Z);         (* kernel_process.poll() *)
  terminate_answer : result unit;          (* kernel_process.terminate() *)
  wait5_answer : result unit;              (* kernel_process.wait(timeout=5) *)
  kill_answer : result unit;               (* kernel_process.kill() *)
  wait_answer : result unit;               (* kernel_process.wait() *)
  disconnect_answer : result unit;         (* stop_channels() inside disconnect_kernel *)
}.

(** [terminate()], wait up to five seconds, [kill()] and wait when that
    times out: the same statements on both platforms. *)
Definition terminate_then_kill (w : ShutdownWorld) : M unit :=
  extern Terminate (terminate_answer w) ;;
  catch_timeout
    (extern (Wait (Some 5%Z)) (wait5_answer w))
    (extern Kill (kill_answer w) ;; extern (Wait None) (wait_answer w)).

Definition SHUTDOWN_GRACEFUL : pystr :=
  CHECK ++ lit " Kernel shutdown gracefully via Jupyter protocol".
Definition SHUTDOWN_WINDOWS : pystr :=
  CHECK ++ lit " Kernel shutdown forcefully (Windows terminate/kill)".
Definition SHUTDOWN_UNIX : pystr :=
  CHECK ++ lit " Kernel shutdown forcefully (Unix SIGTERM/SIGKILL)".
Definition CONNECTIONS_CLOSED : pystr :=
  CHECK ++ lit " Kernel connections closed (process may still be running)".

(** [kernel_process and kernel_process.poll() is None] *)
Definition process_alive (w : ShutdownWorld) : M bool :=
  let! process := get_kernel_process in
  match process with
  | None => ret false
  | Some _ =>
      let! code := lift (poll_answer w) in
      ret (match code with None => true | Some _ => false end)
  end.

Definition shutdown_kernel (w : ShutdownWorld) : M pystr :=
  let! client := get_kernel_client in
  match client with
  | None => ret (CROSS ++ lit " Not connected to any kernel")
  | Some h =>
      catch
        (let! graceful :=
           attempt (extern (Shutdown h) (shutdown_answer w) ;;
                    disconnect_kernel (disconnect_answer w) ;;
                    ret SHUTDOWN_GRACEFUL) in
         match graceful with
         | Ok report => ret report
         | Raise _ =>
             let! alive := process_alive w in
             if alive then
               catch
                 (if IS_WINDOWS then
                    terminate_then_kill w ;;
                    disconnect_kernel (disconnect_answer w) ;;
                    ret SHUTDOWN_WINDOWS
                  else
                    terminate_then_kill w ;;
                    disconnect_kernel (disconnect_answer w) ;;
                    ret SHUTDOWN_UNIX)
                 (fun e =>
                    disconnect_kernel (disconnect_answer w) ;;
                    ret (WARNING ++ lit " Kernel process termination failed: " ++ exn_str e
                         ++ lit ", but connections closed"))
             else
               disconnect_kernel (disconnect_answer w) ;;
               ret CONNECTIONS_CLOSED
         end)
        (fun e =>
           disconnect_kernel (disconnect_answer w) ;;
           ret (CROSS ++ lit " Shutdown failed: " ++ exn_str e ++ lit ", but connections closed"))
  end.

(** *** interrupt_kernel *)

Record InterruptWorld : Type := {
  interrupt_answer : result unit;          (* kernel_client.interrupt() *)
  interrupt_poll_answer : result (option Z);
  sigint_answer : result unit;             (* kernel_process.send_signal(SIGINT) *)
}.

Definition interrupt_kernel (w : InterruptWorld) : M pystr :=
  let! client := get_kernel_client in
  match client with
  | None => ret (CROSS ++ lit " Not connected to any kernel")
  | Some h =>
      if IS_WINDOWS then
        ret (CROSS ++ lit " Interrupt not supported on Windows - press Ctrl+C in the kernel window to interrupt execution")
      else
        catch
          (let! primary := attempt (extern (Interrupt h) (interrupt_answer w)) in
           match primary with
           | Ok _ => ret (CHECK ++ lit " Sent interrupt to kernel via Jupyter protocol")
           | Raise _ =>
               let! process := get_kernel_process in
               match process with
               | None => ret (CROSS ++ lit " No interrupt method available")
               | Some p =>
                   let! code := lift (interrupt_poll_answer w) in
                   match code with
                   | Some _ => ret (CROSS ++ lit " No interrupt method available")
                   | None =>
                       catch
                         (extern SendSigint (sigint_answer w) ;;
                          ret (CHECK ++ lit " Sent SIGINT to kernel (PID: "
                               ++ py_str (PInt (pid p)) ++ lit ") via subprocess"))
                         (fun e => ret (CROSS ++ lit " OS-level interrupt failed: " ++ exn_str e))
                   end
               end
           end)
          (fun e => ret (CROSS ++ lit " Failed to interrupt kernel: " ++ exn_str e))
  end.

(** *** start_kernel *)

(** What the outside world answers during one [start_kernel]. The
    one-second pause before the first [poll()] is not represented. *)
Record StartWorld : Type := {
  start_resolve_env : ResolveEnv;
  start_expanduser : pystr -> result pystr;         (* str(Path(p).expanduser()) *)
  start_path_exists : pystr -> result bool;         (* Path.exists() *)
  sys_executable : pystr;                           (* sys.executable *)
  mkdtemp_answer : result pystr;                    (* tempfile.mkdtemp(prefix="ipython-mcp-") *)
  path_join : pystr -> pystr -> pystr;              (* os.path.join *)
  write_answer : pystr -> pystr -> result unit;     (* open(path, 'w') and f.write(content) *)
  popen_answer : list pystr -> result Process;      (* subprocess.Popen(args, ...) *)
  start_poll_answer : result (option Z);            (* kernel_process.poll() *)
  communicate_answer : result (option (list N) * option (list N));
                                                    (* kernel_process.communicate(): bytes or None *)
  decode_utf8 : list N -> result pystr;             (* bytes.decode('utf-8') *)
  connect_answers : ConnectWorld;                   (* for the connect_to_kernel it calls *)
}.

Definition set_process (p : option Process) (s : State) : State :=
  {| kernel_client := kernel_client s; kernel_process := p;
     clients := clients s; calls := calls s |}.

Definition set_kernel_process (p : Process) : M unit := fun s =>
  (Ok tt, set_process (Some p) s).

(** The command line of the kernel on the other platforms. *)
Definition unix_command (connection_path : pystr) : list pystr :=
  [lit "ipython"; lit "kernel";
   lit "--ConnectionFileMixin.connection_file=" ++ connection_path;
   lit "--InteractiveShellApp.extensions=['autoreload']";
   lit "--InteractiveShellApp.exec_lines=['%autoreload 2']"].

(** The batch file written on Windows. *)
Definition batch_content (executable connection_path : pystr) : pystr :=
  lit "@echo Starting IPython MCP server..." ++ NL
  ++ DQUOTE ++ executable ++ DQUOTE
  ++ lit " -m IPython kernel --ConnectionFileMixin.connection_file="
  ++ DQUOTE ++ connection_path ++ DQUOTE
  ++ lit " --InteractiveShellApp.extensions=" ++ DQUOTE ++ lit "['autoreload']" ++ DQUOTE
  ++ lit " --InteractiveShellApp.exec_lines=" ++ DQUOTE ++ lit "['%autoreload 2']" ++ DQUOTE.

(** The platform branch: either the text of an early [return] (dry run),
    or the process has been spawned and stored in [kernel_process]. *)
Definition launch (w : StartWorld) (dry_run : bool) (connection_path : pystr) : M (option pystr) :=
  if IS_WINDOWS then
    let! temp_dir := lift (mkdtemp_answer w) in
    let batch_file := path_join w temp_dir (lit "start_kernel.bat") in
    let content := batch_content (sys_executable w) connection_path in
    if dry_run then
      ret (Some (lit "Would run Windows batch file with content:" ++ NL ++ content))
    else
      lift (write_answer w batch_file content) ;;
      let! process := lift (popen_answer w [batch_file]) in
      set_kernel_process process ;;
      ret None
  else
    let cmd := unix_command connection_path in
    if dry_run then
      ret (Some (lit "Would run command: " ++ str_join (lit " ") cmd))
    else
      let! process := lift (popen_answer w cmd) in
      set_kernel_process process ;;
      ret None.

(** [out.decode('utf-8') if out else ""] *)
Definition decode_pipe (w : StartWorld) (out : option (list N)) : result pystr :=
  match out with
  | Some (b :: bs) => decode_utf8 w (b :: bs)
  | Some [] => Ok []
  | None => Ok []
  end.

Definition ALREADY_RUNNING : pystr :=
  WARNING ++ lit " Kernel already running, attempting to connect to existing kernel instead".

(** The text after "Kernel failed to start". *)
Definition exit_details (returncode : Z) (stdout_text stderr_text : pystr) : pystr :=
  let error_details := lit "Exit code: " ++ py_str (PInt returncode) in
  let error_details :=
    if nonempty stdout_text
    then error_details ++ NL ++ lit "Stdout: " ++ stdout_text
    else error_details in
  if nonempty stderr_text
  then error_details ++ NL ++ lit "Stderr: " ++ stderr_text
  else error_details.

(** [kernel_process.pid], read from the global. *)
Definition tracked_pid : M Z :=
  let! process := get_kernel_process in
  match process with
  | Some p => ret (pid p)
  | None => lift (Raise (AttributeError PNone (lit "pid")))
  end.

(** What follows the spawn: the check of the exit status, then the
    connection. *)
Definition supervise (w : StartWorld) (connection_path : pystr) : M pystr :=
  let! code := lift (start_poll_answer w) in
  match code with
  | Some returncode =>
      let! pipes := lift (communicate_answer w) in
      let! stdout_text := lift (decode_pipe w (fst pipes)) in
      let! stderr_text := lift (decode_pipe w (snd pipes)) in
      if contains (lit "Address already in use") stderr_text
         || contains (lit "ZMQError") stderr_text
      then
        let! connect_result :=
          connect_to_kernel (connect_answers w) (Some connection_path) in
        ret (ALREADY_RUNNING ++ NL ++ connect_result)
      else
        ret (CROSS ++ lit " Kernel failed to start" ++ NL
             ++ exit_details returncode stdout_text stderr_text)
  | None =>
      let! connect_result :=
        connect_to_kernel (connect_answers w) (Some connection_path) in
      let! process_id := tracked_pid in
      ret (CHECK ++ lit " Started IPython kernel (PID: " ++ py_str (PInt process_id) ++ lit ")"
           ++ NL ++ FOLDER ++ lit " Using connection file: " ++ connection_path
           ++ NL ++ connect_result)
  end.

Definition start_kernel (w : StartWorld) (connection_file : option pystr) (dry_run : bool) : M pystr :=
  catch
    (let resolved_file := resolve_connection_file (start_resolve_env w) connection_file in
     let! connection_path := lift (start_expanduser w resolved_file) in
     let! found := lift (start_path_exists w connection_path) in
     if negb found then
       ret (CROSS ++ lit " Connection file not found: " ++ connection_path)
     else
       let! early := launch w dry_run connection_path in
       match early with
       | Some report => ret report
       | None => supervise w connection_path
       end)
    (fun e => ret (CROSS ++ lit " Failed to start kernel: " ++ exn_str e)).

(** What the spawn of a real run answers: on Windows the temporary
    directory, the batch file and the process started from it, elsewhere
    the process started from the command line. *)
Definition spawn_answer (w : StartWorld) (connection_path : pystr) : result Process :=
  if IS_WINDOWS then
    try! temp_dir := mkdtemp_answer w in
    let batch_file := path_join w temp_dir (lit "start_kernel.bat") in
    try! written :=
      write_answer w batch_file (batch_content (sys_executable w) connection_path) in
    popen_answer w [batch_file]
  else popen_answer w (unix_command connection_path).

(** *** The tool surface *)

(** One tool call, with what the outside world answers during it, and a
    session of calls made one after the other on the shared state. *)
Inductive Command : Type :=
| StartKernel (w : StartWorld) (connection_file : option pystr) (dry_run : bool)
| ConnectToKernel (w : ConnectWorld) (connection_file : option pystr)
| ExecuteCode (w : ExecuteWorld) (code : pystr)
| KernelStatus (connection_info : result pyval)
| DisconnectKernel (stop : result unit)
| ShutdownKernel (w : ShutdownWorld)
| InterruptKernel (w : InterruptWorld).

Definition run_command (c : Command) : M pystr :=
  match c with
  | StartKernel w connection_file dry_run => start_kernel w connection_file dry_run
  | ConnectToKernel w connection_file => connect_to_kernel w connection_file
  | ExecuteCode w code => execute_code w code
  | KernelStatus connection_info => kernel_status connection_info
  | DisconnectKernel stop => disconnect_kernel stop
  | ShutdownKernel w => shutdown_kernel w
  | InterruptKernel w => interrupt_kernel w
  end.

Fixpoint run_session (commands : list Command) (s : State) : State :=
  match commands with
  | [] => s
  | c :: rest => run_session rest (snd (run_command c s))
  end.

(** ** Vocabulary of the properties *)

(** The state after a run of [disconnect_kernel] calls, one answer of
    [stop_channels] per call. *)
Fixpoint disconnect_many (answers : list (result unit)) (s : State) : State :=
  match answers with
  | [] => s
  | a :: rest => disconnect_many rest (snd (disconnect_kernel a s))
  end.

(** Every client whose channels are running is the one in the connection
    slot. *)
Definition at_most_one_open (s : State) : Prop :=
  ∀ h c, clients s !! h = Some c → channels_running c = true → kernel_client s = Some h.

Definition new_calls (s s' : State) : list Call := drop (length (calls s)) (calls s').

(** *** Messages of a request *)

(** A broadcast message that belongs to the request [msg_id], and one that
    belongs to another request. A message whose parent header cannot be
    read is neither. *)
Definition own (msg_id : pystr) (msg : pyval) : bool :=
  match parent_msg_id msg with
  | Ok parent_id => eq_str parent_id msg_id
  | Raise _ => false
  end.

Definition foreign (msg_id : pystr) (msg : pyval) : bool :=
  match parent_msg_id msg with
  | Ok parent_id => negb (eq_str parent_id msg_id)
  | Raise _ => false
  end.

(** The reads of the drain loop with the messages of other requests left
    out. *)
Definition without_foreign (msg_id : pystr) (polls : list (result pyval)) : list (result pyval) :=
  List.filter (fun a => match a with
                        | Ok msg => negb (foreign msg_id msg)
                        | Raise _ => true
                        end) polls.

Definition with_iopub (w : ExecuteWorld) (polls : list (result pyval)) : ExecuteWorld :=
  {| execute_answer := execute_answer w; shell_answer := shell_answer w;
     iopub_answers := polls |}.

(** Messages that add nothing to the output: a [status] message, or a
    [stream] message whose text is empty once stripped. *)
Definition msg_type_is (name : pystr) (msg : pyval) : bool :=
  match py_get msg (lit "msg_type") PNone with
  | Ok t => eq_str t name
  | Raise _ => false
  end.

Definition stream_text (msg : pyval) : result pystr :=
  try! content := py_get msg (lit "content") (PDict []) in
  try! text := py_get content (lit "text") (PStr []) in
  py_strip text.

Definition is_blank_stream (msg : pyval) : bool :=
  msg_type_is (lit "stream") msg
  && match stream_text msg with
     | Ok [] => true
     | _ => false
     end.

Definition quiet (msg_id : pystr) (poll : result pyval) : bool :=
  match poll with
  | Ok msg =>
      implb (own msg_id msg) (msg_type_is (lit "status") msg || is_blank_stream msg)
  | Raise _ => true
  end.

(** *** What ends the drain loop *)

(** The [status] message of the request [msg_id] that reports the kernel
    idle. *)
Definition is_idle (msg_id : pystr) (msg : pyval) : bool :=
  own msg_id msg
  && msg_type_is (lit "status") msg
  && match (try! content := py_get msg (lit "content") (PDict []) in
            py_get content (lit "execution_state") PNone) with
     | Ok state => eq_str state (lit "idle")
     | Raise _ => false
     end.

(** A read after which the loop is left: the read itself raises, or the
    handling of the message raises or reaches [break]. *)
Definition stops_loop (msg_id : pystr) (poll : result pyval) : bool :=
  match poll with
  | Raise _ => true
  | Ok msg =>
      match handle_message msg_id msg with
      | Ok Stop => true
      | Raise _ => true
      | Ok Skip => false
      | Ok (Append _) => false
      end
  end.

(** A message of the request whose [execute_result] carries something
    other than text: a true value under ['text/plain'] that is not a
    string. *)
Definition odd_result (msg_id : pystr) (poll : result pyval) : bool :=
  match poll with
  | Raise _ => false
  | Ok msg =>
      own msg_id msg
      && msg_type_is (lit "execute_result") msg
      && match (try! content := py_get msg (lit "content") (PDict []) in
                try! data := py_get content (lit "data") (PDict []) in
                py_get data (lit "text/plain") (PStr [])) with
         | Ok (PStr _) => false
         | Ok v => truthy v
         | Raise _ => false
         end
  end.

(** *** States of a session *)

(** The client objects once the stored client, if any, has been stopped. *)
Definition prior_stopped (s : State) : list Client :=
  match kernel_client s with
  | Some old => alter stopped old (clients s)
  | None => clients s
  end.

(** The stored handle refers to a client object, and only the stored
    client can have running channels. *)
Definition session_ok (s : State) : Prop :=
  (∀ h, kernel_client s = Some h → h < length (clients s))
  ∧ at_most_one_open s.

(** The two ways a tool other than [start_kernel] and [connect_to_kernel]
    leaves the connection slot and the clients: as they were, or the
    stored client stopped and the slot emptied. *)
Definition slot_kept_or_released (s s' : State) : Prop :=
  (kernel_client s' = kernel_client s ∧ clients s' = clients s)
  ∨ ∃ h, kernel_client s = Some h
         ∧ kernel_client s' = None
         ∧ clients s' = alter stopped h (clients s).

(** ** Concrete worlds *)

(** Protocol messages. *)
Definition message (parent msg_type : pystr) (content : list (pystr * pyval)) : pyval :=
  PDict [(lit "parent_header", PDict [(lit "msg_id", PStr parent)]);
         (lit "msg_type", PStr msg_type);
         (lit "content", PDict content)].

Definition stream_message (parent text : pystr) : pyval :=
  message parent (lit "stream") [(lit "name", PStr (lit "stdout")); (lit "text", PStr text)].

Definition status_message (parent state : pystr) : pyval :=
  message parent (lit "status") [(lit "execution_state", PStr state)].

Definition result_message (parent text : pystr) : pyval :=
  message parent (lit "execute_result")
    [(lit "data", PDict [(lit "text/plain", PStr text)])].

Definition error_message (parent : pystr) : pyval :=
  message parent (lit "error")
    [(lit "ename", PStr (lit "ZeroDivisionError"));
     (lit "evalue", PStr (lit "division by zero"));
     (lit "traceback",
      PList [PStr (ANSI_RED ++ lit "ZeroDivisionError" ++ ANSI_RESET);
             PStr (ANSI_BOLD_GREEN ++ lit "----> 1 " ++ ANSI_RESET ++ lit "1/0")])].

Definition reply_ok : pyval :=
  PDict [(lit "content", PDict [(lit "status", PStr (lit "ok"))])].

Definition reply_error : pyval :=
  PDict [(lit "content",
          PDict [(lit "status", PStr (lit "error"));
                 (lit "ename", PStr (lit "ZeroDivisionError"));
                 (lit "evalue", PStr (lit "division by zero"))])].

(** A request [req-2] that prints [hello] while output of an earlier
    request [req-1] is still arriving. *)
Definition busy_world : ExecuteWorld :=
  {| execute_answer := fun _ => Ok (lit "req-2");
     shell_answer := Ok reply_ok;
     iopub_answers :=
       [Ok (stream_message (lit "req-1") (lit "stale output"));
        Ok (status_message (lit "req-2") (lit "busy"));
        Ok (stream_message (lit "req-2") (10%N :: lit "hello" ++ [10%N]));
        Ok (result_message (lit "req-1") (lit "41"));
        Ok (result_message (lit "req-2") (lit "42"));
        Ok (status_message (lit "req-2") (lit "idle"));
        Ok (stream_message (lit "req-2") (lit "too late"))] |}.

(** A request whose reply is an error, with the error also broadcast. *)
Definition failing_world : ExecuteWorld :=
  {| execute_answer := fun _ => Ok (lit "req-3");
     shell_answer := Ok reply_error;
     iopub_answers :=
       [Ok (stream_message (lit "req-3") (lit "before the error"));
        Ok (error_message (lit "req-3"));
        Ok (status_message (lit "req-3") (lit "idle"))] |}.

(** A request that only prints white space. *)
Definition silent_world : ExecuteWorld :=
  {| execute_answer := fun _ => Ok (lit "req-4");
     shell_answer := Ok reply_ok;
     iopub_answers :=
       [Ok (status_message (lit "req-4") (lit "busy"));
        Ok (stream_message (lit "req-4") (32%N :: 9%N :: [10%N]));
        Ok (stream_message (lit "req-1") (lit "stale output"));
        Ok (status_message (lit "req-4") (lit "idle"))] |}.

(** A session with one open client and a tracked worker process. *)
Definition connected_state : State :=
  {| kernel_client := Some 0;
     kernel_process := Some {| pid := 4242 |};
     clients := [{| channels_running := true; loaded_info := None |}];
     calls := [] |}.

Definition descriptor : pyval :=
  PDict [(lit "ip", PStr (lit "127.0.0.1"));
         (lit "shell_port", PInt 50001);
         (lit "key", PStr (lit "a0436f6c-1916-498b-8eb9-e81ab9368e84"));
         (lit "signature_scheme", PStr (lit "hmac-sha256"))].

Definition example_env : ResolveEnv :=
  {| env_IPYTHON_MCP_CONNECTION := Some (lit "/home/u/from_env.json");
     resources_default := Ok (lit "/pkg/ipython_mcp/default_connection.json");
     module_dir_default := lit "/src/ipython_mcp/default_connection.json" |}.

Definition bare_env : ResolveEnv :=
  {| env_IPYTHON_MCP_CONNECTION := None;
     resources_default := Ok (lit "/pkg/ipython_mcp/default_connection.json");
     module_dir_default := lit "/src/ipython_mcp/default_connection.json" |}.

(** A file system holding [found] (or nothing) and a kernel that answers
    the readiness wait with [ready]. *)
Definition connect_world (found : bool) (document : result pyval)
    (stop ready : result unit) : ConnectWorld :=
  {| resolve_env := example_env;
     expanduser := fun p => Ok p;
     path_exists := fun _ => Ok found;
     json_load := fun _ => document;
     stop_answer := stop;
     load_info_answer := Ok tt;
     start_answer := Ok tt;
     ready_answer := ready |}.

Definition NOT_READY : exn := LibraryError (lit "Kernel didn't respond in 5 seconds").

(** The worker has exited; the protocol request is answered by [request]
    and [stop_channels] by [stop]. *)
Definition exited_world (request stop : result unit) : ShutdownWorld :=
  {| shutdown_answer := request;
     poll_answer := Ok (Some 0%Z);
     terminate_answer := Ok tt;
     wait5_answer := Ok tt;
     kill_answer := Ok tt;
     wait_answer := Ok tt;
     disconnect_answer := stop |}.

Definition SOCKET_ERROR : exn := LibraryError (lit "Socket operation on non-socket").

(** A request whose result is a number and not its text. *)
Definition numeric_world : ExecuteWorld :=
  {| execute_answer := fun _ => Ok (lit "req-6");
     shell_answer := Ok reply_ok;
     iopub_answers :=
       [Ok (stream_message (lit "req-6") (lit "computing"));
        Ok (message (lit "req-6") (lit "execute_result")
              [(lit "data", PDict [(lit "text/plain", PInt 42)])]);
        Ok (stream_message (lit "req-6") (lit "done"));
        Ok (status_message (lit "req-6") (lit "idle"))] |}.

(** The same endpoint as [descriptor] with another key of the same first
    eight code points. *)
Definition descriptor_other_key : pyval :=
  PDict [(lit "ip", PStr (lit "127.0.0.1"));
         (lit "shell_port", PInt 50001);
         (lit "key", PStr (lit "a0436f6c-ffff-0000-ffff-000000000000"));
         (lit "signature_scheme", PStr (lit "hmac-sha256"))].

(** A platform on which the descriptor exists and the spawn succeeds; the
    first [poll()] answers [code] and the process wrote [stderr]. Pipes
    hold ASCII, so decoding keeps the values. *)
Definition start_world (code : option Z) (stderr : list N) (connect : ConnectWorld) : StartWorld :=
  {| start_resolve_env := example_env;
     start_expanduser := fun p => Ok p;
     start_path_exists := fun _ => Ok true;
     sys_executable := lit "C:/Python311/python.exe";
     mkdtemp_answer := Ok (lit "C:/Temp/ipython-mcp-k3x9");
     path_join := fun a b => a ++ [92%N] ++ b;
     write_answer := fun _ _ => Ok tt;
     popen_answer := fun _ => Ok {| pid := 4711 |};
     start_poll_answer := Ok code;
     communicate_answer := Ok (Some [], Some stderr);
     decode_utf8 := fun bytes => Ok bytes;
     connect_answers := connect |}.

Definition ready_connect_world : ConnectWorld :=
  connect_world true (Ok descriptor) (Ok tt) (Ok tt).

(** ** Properties *)

(** Unfold the monad and the client calls of a tool body and reduce. *)
Ltac run_tool :=
  unfold stop_channels, start_channels, load_connection_info, new_client,
    extern, log, update_client, set_kernel_client, get_kernel_client,
    get_kernel_process, catch, catch_timeout, attempt, bind, lift, ret;
  cbn.

(** *** Connection file resolution *)

(** C6. [resolve_connection_file] follows the precedence explicit argument,
    then [IPYTHON_MCP_CONNECTION], then the bundled default: a non-empty
    explicit argument is returned whatever the environment holds; without
    it a non-empty value of the variable is returned; without both the
    bundled default path is returned. *)
Theorem resolve_connection_file_precedence (e : ResolveEnv) (connection_file : option pystr) :
  (∀ f, connection_file = Some f → f ≠ [] →
        resolve_connection_file e connection_file = f)
  ∧ (∀ v, unset connection_file → env_IPYTHON_MCP_CONNECTION e = Some v → v ≠ [] →
          resolve_connection_file e connection_file = v)
  ∧ (unset connection_file → unset (env_IPYTHON_MCP_CONNECTION e) →
     resolve_connection_file e connection_file = package_default e).
Proof.
  unfold resolve_connection_file, unset.
  split; [|split].
  - intros f -> Hf. destruct f; [contradiction | reflexivity].
  - intros v [-> | ->] -> Hv; destruct v; try contradiction; reflexivity.
  - intros [-> | ->] [-> | ->]; reflexivity.
Qed.

(** *** disconnect_kernel *)

Lemma disconnect_kernel_cases (a : result unit) (s : State) :
  match kernel_client s, a with
  | None, _ => disconnect_kernel a s = (Ok DISCONNECTED, s)
  | Some h, Ok _ =>
      disconnect_kernel a s =
        (Ok DISCONNECTED,
         set_client None (alter_client h stopped (record_call (StopChannels h) s)))
  | Some h, Raise e =>
      disconnect_kernel a s =
        (Ok (CROSS ++ lit " Error during disconnection: " ++ exn_str e),
         record_call (StopChannels h) s)
  end.
Proof.
  unfold disconnect_kernel, catch, bind, get_kernel_client.
  destruct s as [[h|] p cs tr]; simpl; [|reflexivity].
  destruct a as [u|e]; reflexivity.
Qed.

(** C9. [disconnect_kernel] never touches the process slot: after one call,
    and after any run of calls, [kernel_process] is what it was. *)
Theorem disconnect_kernel_keeps_process (answers : list (result unit)) (a : result unit) (s : State) :
  kernel_process (snd (disconnect_kernel a s)) = kernel_process s
  ∧ kernel_process (disconnect_many answers s) = kernel_process s.
Proof.
  assert (Hone : ∀ b t, kernel_process (snd (disconnect_kernel b t)) = kernel_process t).
  { intros b t. pose proof (disconnect_kernel_cases b t) as H.
    destruct (kernel_client t); [destruct b|]; rewrite H; reflexivity. }
  split; [apply Hone|].
  revert s. induction answers as [|b rest IH]; intros s; simpl; [reflexivity|].
  rewrite IH. apply Hone.
Qed.

(** C7, as the code has it. With no handle stored the call changes nothing
    and reports success. When [stop_channels] returns, the slot is empty
    afterwards and a second call changes nothing and reports success again.
    When [stop_channels] raises, the call reports the error and the handle
    stays in the slot. *)
Theorem disconnect_kernel_idempotent_when_stop_returns (a1 a2 : result unit) (s : State) :
  (kernel_client s = None → disconnect_kernel a1 s = (Ok DISCONNECTED, s))
  ∧ (a1 = Ok tt ∨ kernel_client s = None →
     let s1 := snd (disconnect_kernel a1 s) in
     fst (disconnect_kernel a1 s) = Ok DISCONNECTED
     ∧ kernel_client s1 = None
     ∧ disconnect_kernel a2 s1 = (Ok DISCONNECTED, s1))
  ∧ (∀ h e, kernel_client s = Some h → a1 = Raise e →
       fst (disconnect_kernel a1 s) = Ok (CROSS ++ lit " Error during disconnection: " ++ exn_str e)
       ∧ kernel_client (snd (disconnect_kernel a1 s)) = Some h).
Proof.
  pose proof (disconnect_kernel_cases a1 s) as H1.
  split; [|split].
  - intros Hn. rewrite Hn in H1. exact H1.
  - intros Hor. simpl.
    assert (Hs1 : fst (disconnect_kernel a1 s) = Ok DISCONNECTED
                  ∧ kernel_client (snd (disconnect_kernel a1 s)) = None).
    { destruct (kernel_client s) as [h|] eqn:Hk.
      - destruct Hor as [-> | Hn]; [|discriminate]. rewrite H1. split; reflexivity.
      - rewrite H1. split; [reflexivity | exact Hk]. }
    destruct Hs1 as [Hr Hc]. split; [exact Hr|]. split; [exact Hc|].
    pose proof (disconnect_kernel_cases a2 (snd (disconnect_kernel a1 s))) as H2.
    rewrite Hc in H2. exact H2.
  - intros h e Hk ->. rewrite Hk in H1. rewrite H1. split; [reflexivity | exact Hk].
Qed.


(** *** connect_to_kernel *)

(** C8. When the resolved descriptor file does not exist, or exists but
    cannot be parsed, [connect_to_kernel] returns a failure report and the
    whole state is what it was: the stored handle, its client object and
    the list of calls are untouched, so nothing was stopped. *)
Theorem connect_failed_load_keeps_session (w : ConnectWorld) (connection_file : option pystr)
    (s : State) (path : pystr) :
  expanduser w (resolve_connection_file (resolve_env w) connection_file) = Ok path →
  path_exists w path = Ok false
  ∨ (path_exists w path = Ok true ∧ ∃ e, json_load w path = Raise e) →
  ∃ detail, connect_to_kernel w connection_file s = (Ok (CROSS ++ detail), s).
Proof.
  intros Hpath Hload. unfold connect_to_kernel. run_tool. rewrite Hpath.
  destruct Hload as [Hno | [Hyes [e He]]].
  - rewrite Hno. cbn. eexists. reflexivity.
  - rewrite Hyes. cbn. rewrite He. eexists. reflexivity.
Qed.

Lemma lookup_new_client {A} (l : list A) (x y : A) (h : nat) :
  (l ++ [x]) !! h = Some y → h ≠ length l → l !! h = Some y.
Proof.
  intros Hl Hne. apply lookup_app_Some in Hl as [Hl | [Hge Hl]]; [exact Hl|].
  apply list_lookup_singleton_Some in Hl as [Hz _]. lia.
Qed.

Lemma running_after_stop (cs : list Client) (old h : nat) (x c : Client) :
  (alter stopped old cs ++ [x]) !! h = Some c →
  channels_running c = true →
  h ≠ length cs →
  cs !! h = Some c ∧ h ≠ old.
Proof.
  intros Hl Hrun Hne.
  apply lookup_new_client in Hl; [|rewrite length_alter; exact Hne].
  rewrite list_lookup_alter in Hl.
  destruct (decide (old = h)) as [->|Hoh].
  - destruct (cs !! h) as [c0|]; [|discriminate].
    injection Hl as <-. discriminate.
  - split; [exact Hl | congruence].
Qed.

Lemma stopped_after_stop (cs : list Client) (old : nat) (x : Client) :
  is_Some (cs !! old) →
  ∃ c, (alter stopped old cs ++ [x]) !! old = Some c ∧ channels_running c = false.
Proof.
  intros [c0 Hc0]. exists (stopped c0). split; [|reflexivity].
  rewrite lookup_app_l by (rewrite length_alter; eapply lookup_lt_Some; eauto).
  rewrite list_lookup_alter_eq, Hc0. reflexivity.
Qed.

(** C5. A [connect_to_kernel] made while a client is stored and that gets
    as far as [start_channels] on a handle [h] has first called
    [stop_channels] on the stored client, which returned, then created [h]:
    the calls of this run begin with stop, new, load, start in that order,
    [h] is fresh, the former client's channels are not running afterwards
    and the slot holds [h]. Whatever the outside world answers, a state in
    which only the stored client may have running channels stays such a
    state. *)
Theorem connect_closes_prior_first (w : ConnectWorld) (connection_file : option pystr)
    (s : State) (old : nat) :
  kernel_client s = Some old →
  is_Some (clients s !! old) →
  let s' := snd (connect_to_kernel w connection_file s) in
  (∀ h, StartChannels h ∈ new_calls s s' →
     h = length (clients s) ∧ h ≠ old
     ∧ stop_answer w = Ok tt
     ∧ (∃ rest, calls s' = calls s ++ StopChannels old :: NewClient h
                             :: LoadConnectionInfo h :: StartChannels h :: rest)
     ∧ (∃ c, clients s' !! old = Some c ∧ channels_running c = false)
     ∧ kernel_client s' = Some h)
  ∧ (at_most_one_open s → at_most_one_open s').
Proof.
  intros Hk Hold. pose proof (lookup_lt_is_Some_1 _ _ Hold) as Hlt.
  destruct s as [kc kp cs tr]. cbn in Hk, Hold, Hlt. subst kc.
  unfold new_calls, at_most_one_open, connect_to_kernel. run_tool.
  destruct (expanduser w _) as [path|?]; cbn;
    try (rewrite drop_all; split; [intros h Hin; inversion Hin | tauto]).
  destruct (path_exists w path) as [[|]|?]; cbn;
    try (rewrite drop_all; split; [intros h Hin; inversion Hin | tauto]).
  destruct (json_load w path) as [info|?]; cbn;
    try (rewrite drop_all; split; [intros h Hin; inversion Hin | tauto]).
  destruct (stop_answer w) as [[]|?]; cbn.
  2: { rewrite drop_app_length. split; [intros h Hin|].
       - apply list_elem_of_singleton in Hin. discriminate.
       - tauto. }
  assert (Hinv : (∀ h c, cs !! h = Some c → channels_running c = true → Some old = Some h) →
                 ∀ (cs' : list Client) h c,
                   (∀ j, j ≠ length cs → cs' !! j = (alter stopped old cs ++ [fresh_client]) !! j) →
                   cs' !! h = Some c → channels_running c = true → Some (length cs) = Some h).
  { intros Hinv0 cs' h c Hsame Hl Hrun. f_equal.
    destruct (decide (h = length cs)) as [->|Hne]; [reflexivity|exfalso].
    rewrite (Hsame h Hne) in Hl.
    destruct (running_after_stop _ _ _ _ _ Hl Hrun Hne) as [Hl' Hne'].
    specialize (Hinv0 h c Hl' Hrun). congruence. }
  assert (Hstopped : ∀ cs' : list Client,
             (∀ j, j ≠ length cs → cs' !! j = (alter stopped old cs ++ [fresh_client]) !! j) →
             ∃ c, cs' !! old = Some c ∧ channels_running c = false).
  { intros cs' Hsame. rewrite (Hsame old) by lia. apply stopped_after_stop, Hold. }
  rewrite !length_alter.
  destruct (load_info_answer w) as [[]|?]; cbn;
    [destruct (start_answer w) as [[]|?]; cbn;
      [destruct (ready_answer w) as [[]|?]; cbn;
        [destruct (connected_report info path); cbn|]|]|];
    rewrite <- !app_assoc, drop_app_length; cbn;
    (split;
     [ intros h Hin;
       repeat (apply elem_of_cons in Hin as [Hin|Hin]; [try discriminate|]);
       try (apply elem_of_nil in Hin; contradiction);
       (injection Hin as ->;
        split; [reflexivity|]; split; [lia|]; split; [reflexivity|];
        split; [eexists; reflexivity|];
        split; [|reflexivity];
        apply Hstopped; intros j Hj;
        rewrite ?list_lookup_alter_ne by congruence; reflexivity)
     | intros Hinv0 h c; apply (Hinv Hinv0); intros j Hj;
       rewrite ?list_lookup_alter_ne by congruence; reflexivity ]).
Qed.

(** When the descriptor loads and the channels open but the readiness wait
    raises, the failure is reported and the new client, channels running,
    is what the connection slot holds. *)
Lemma connect_not_ready_keeps_handle (w : ConnectWorld) (connection_file : option pystr)
    (s : State) (path : pystr) (info : pyval) (e : exn) :
  kernel_client s = None →
  expanduser w (resolve_connection_file (resolve_env w) connection_file) = Ok path →
  path_exists w path = Ok true →
  json_load w path = Ok info →
  load_info_answer w = Ok tt →
  start_answer w = Ok tt →
  ready_answer w = Raise e →
  let h := length (clients s) in
  let s' := snd (connect_to_kernel w connection_file s) in
  fst (connect_to_kernel w connection_file s)
    = Ok (CROSS ++ lit " Failed to connect to kernel: " ++ exn_str e)
  ∧ kernel_client s' = Some h
  ∧ clients s' !! h = Some {| channels_running := true; loaded_info := Some info |}.
Proof.
  intros Hk Hpath Hex Hjson Hload Hstart Hready.
  destruct s as [kc kp cs tr]. cbn in Hk. subst kc.
  unfold connect_to_kernel. run_tool.
  rewrite Hpath. cbn. rewrite Hex. cbn. rewrite Hjson. cbn.
  rewrite Hload. cbn. rewrite Hstart. cbn. rewrite Hready. cbn.
  split; [reflexivity|]. split; [reflexivity|].
  rewrite list_lookup_alter_eq, list_lookup_alter_eq.
  rewrite lookup_app_r by lia. rewrite Nat.sub_diag. reflexivity.
Qed.

(** *** shutdown_kernel *)

(** C4, as the code has it. With a handle stored and a tracked process
    that has already exited, [shutdown_kernel] returns a report: the
    graceful one when the protocol request returns, the "connections
    closed" one when it raises. The process is not signalled, the process
    slot keeps its handle, and the connection slot is emptied exactly when
    [stop_channels] returns. *)
Theorem shutdown_after_process_exit (w : ShutdownWorld) (s : State)
    (h : nat) (p : Process) (code : Z) :
  kernel_client s = Some h →
  kernel_process s = Some p →
  poll_answer w = Ok (Some code) →
  let s' := snd (shutdown_kernel w s) in
  fst (shutdown_kernel w s)
    = Ok (match shutdown_answer w with
          | Ok _ => SHUTDOWN_GRACEFUL
          | Raise _ => CONNECTIONS_CLOSED
          end)
  ∧ kernel_process s' = Some p
  ∧ kernel_client s' = match disconnect_answer w with
                       | Ok _ => None
                       | Raise _ => Some h
                       end
  ∧ new_calls s s' = [Shutdown h; StopChannels h].
Proof.
  intros Hk Hp Hpoll.
  destruct s as [kc kp cs tr]. cbn in Hk, Hp. subst kc kp.
  unfold new_calls, shutdown_kernel, process_alive, disconnect_kernel. run_tool.
  destruct (shutdown_answer w) as [[]|?]; cbn.
  - destruct (disconnect_answer w) as [[]|?]; cbn;
      rewrite <- !app_assoc, drop_app_length; repeat split; reflexivity.
  - rewrite Hpoll. cbn.
    destruct (disconnect_answer w) as [[]|?]; cbn;
      rewrite <- !app_assoc, drop_app_length; repeat split; reflexivity.
Qed.


(** *** execute_code *)

Lemma eq_str_true (v : pyval) (s : pystr) : eq_str v s = true → v = PStr s.
Proof.
  destruct v; cbn; try discriminate.
  intros H. apply bool_decide_eq_true in H. congruence.
Qed.

Lemma own_parent (msg_id : pystr) (msg : pyval) :
  own msg_id msg = true → parent_msg_id msg = Ok (PStr msg_id).
Proof.
  unfold own. destruct (parent_msg_id msg) as [v|]; [|discriminate].
  intros H. apply eq_str_true in H. congruence.
Qed.

Lemma foreign_skipped (msg_id : pystr) (msg : pyval) :
  foreign msg_id msg = true → handle_message msg_id msg = Ok Skip.
Proof.
  unfold foreign, handle_message.
  destruct (parent_msg_id msg) as [v|]; [|discriminate]. cbn.
  intros ->. reflexivity.
Qed.

Lemma appended_is_own (msg_id : pystr) (msg fragment : pyval) :
  handle_message msg_id msg = Ok (Append fragment) → own msg_id msg = true.
Proof.
  unfold own, handle_message.
  destruct (parent_msg_id msg) as [v|]; [|discriminate]. cbn.
  destruct (eq_str v msg_id); [reflexivity | discriminate].
Qed.

Lemma drain_without_foreign (msg_id : pystr) (polls : list (result pyval)) (acc : list pyval) :
  drain msg_id (without_foreign msg_id polls) acc = drain msg_id polls acc.
Proof.
  revert acc. induction polls as [|[msg|e] rest IH]; intros acc; cbn; [reflexivity| |reflexivity].
  destruct (foreign msg_id msg) eqn:Hf; cbn.
  - rewrite (foreign_skipped _ _ Hf). apply IH.
  - destruct (handle_message msg_id msg) as [[|fragment|]|]; try reflexivity; apply IH.
Qed.

Lemma drain_origin (msg_id : pystr) (polls : list (result pyval)) (acc : list pyval) (fragment : pyval) :
  fragment ∈ drain msg_id polls acc →
  fragment ∈ acc
  ∨ ∃ msg, Ok msg ∈ polls ∧ handle_message msg_id msg = Ok (Append fragment).
Proof.
  revert acc. induction polls as [|[msg|e] rest IH]; intros acc; cbn; [tauto| |tauto].
  destruct (handle_message msg_id msg) as [[|appended|]|] eqn:Hm; try tauto.
  - intros Hin. destruct (IH _ Hin) as [Hacc | [m [Hm1 Hm2]]]; [tauto|].
    right. exists m. split; [right; exact Hm1 | exact Hm2].
  - intros Hin. destruct (IH _ Hin) as [Hacc | [m [Hm1 Hm2]]].
    + apply elem_of_app in Hacc as [Hacc | Hlast]; [tauto|].
      apply list_elem_of_singleton in Hlast. subst appended.
      right. exists msg. split; [left | exact Hm].
    + right. exists m. split; [right; exact Hm1 | exact Hm2].
Qed.

(** C1. Whatever is read from the broadcast channel during the drain loop,
    every fragment collected comes from a message whose parent header
    carries the id [execute] returned for this request, and the report is
    the one the same call returns when the messages of other requests are
    never delivered. *)
Theorem execute_code_ignores_foreign (w : ExecuteWorld) (code msg_id : pystr) (s : State) :
  execute_answer w code = Ok msg_id →
  (∀ fragment, fragment ∈ drain msg_id (iopub_answers w) [] →
     ∃ msg, Ok msg ∈ iopub_answers w
            ∧ parent_msg_id msg = Ok (PStr msg_id)
            ∧ handle_message msg_id msg = Ok (Append fragment))
  ∧ execute_code w code s
    = execute_code (with_iopub w (without_foreign msg_id (iopub_answers w))) code s.
Proof.
  intros Hid. split.
  - intros fragment Hin.
    destruct (drain_origin _ _ _ _ Hin) as [Hnil | [msg [Hm1 Hm2]]].
    + apply elem_of_nil in Hnil. contradiction.
    + exists msg. split; [exact Hm1|]. split; [|exact Hm2].
      apply own_parent. eapply appended_is_own. exact Hm2.
  - unfold execute_code. run_tool. rewrite Hid. cbn.
    rewrite drain_without_foreign. reflexivity.
Qed.


(** C2. When the shell reply has status ['error'], the report is the
    failure marker followed by the reply's own [ename] and [evalue]
    (defaults ['Error'] and the empty string), whatever the drain loop
    collected from the broadcast channel. *)
Theorem execute_code_reply_error_wins (w : ExecuteWorld) (code msg_id : pystr)
    (s : State) (h : nat) (reply : pyval) :
  kernel_client s = Some h →
  execute_answer w code = Ok msg_id →
  shell_answer w = Ok reply →
  reply_status reply = Ok (PStr (lit "error")) →
  ∃ error_info,
    py_getitem reply (lit "content") = Ok (PDict error_info)
    ∧ execute_code w code s
      = (Ok (CROSS ++ lit " "
             ++ py_str (dict_get error_info (lit "ename") (PStr (lit "Error")))
             ++ lit ": "
             ++ py_str (dict_get error_info (lit "evalue") (PStr []))), s).
Proof.
  intros Hk Hid Hreply Hstatus.
  unfold execute_code. run_tool. rewrite Hk, Hid. cbn. rewrite Hreply. cbn.
  unfold final_report. rewrite Hstatus. cbn.
  unfold reply_status in Hstatus.
  destruct (py_getitem reply (lit "content")) as [content|] eqn:Hc; [|discriminate].
  cbn in Hstatus. destruct content; try discriminate.
  exists entries. split; [reflexivity|]. reflexivity.
Qed.

Lemma quiet_message_appends_nothing (msg_id : pystr) (msg : pyval) :
  quiet msg_id (Ok msg) = true →
  ∀ fragment, handle_message msg_id msg ≠ Ok (Append fragment).
Proof.
  intros Hq fragment Happ.
  pose proof (appended_is_own _ _ _ Happ) as Hown.
  cbn in Hq. rewrite Hown in Hq. cbn in Hq.
  unfold handle_message in Happ. unfold own in Hown.
  destruct (parent_msg_id msg) as [v|]; [|discriminate]. cbn in Happ.
  rewrite Hown in Happ. cbn in Happ.
  unfold is_blank_stream, msg_type_is, stream_text in Hq.
  destruct (py_get msg (lit "msg_type") PNone) as [t|]; [|discriminate].
  cbn in Happ.
  destruct (py_get msg (lit "content") (PDict [])) as [content|]; [|discriminate].
  cbn in Happ, Hq.
  apply orb_true_iff in Hq as [Hstatus | Hstream].
  - apply eq_str_true in Hstatus. subst t.
    vm_compute (eq_str (PStr (lit "status")) _) in Happ.
    destruct (py_get content (lit "execution_state") PNone) as [st|]; [|discriminate].
    cbn in Happ. destruct (eq_str st (lit "idle")); discriminate.
  - apply andb_true_iff in Hstream as [Ht Hblank]. rewrite Ht in Happ.
    destruct (py_get content (lit "text") (PStr [])) as [text|]; [|discriminate].
    cbn in Happ, Hblank.
    destruct (py_strip text) as [[|c r]|]; try discriminate.
Qed.

Lemma drain_quiet (msg_id : pystr) (polls : list (result pyval)) (acc : list pyval) :
  forallb (quiet msg_id) polls = true → drain msg_id polls acc = acc.
Proof.
  induction polls as [|[msg|e] rest IH]; intros Hq; [reflexivity| |reflexivity].
  change (forallb (quiet msg_id) (Ok msg :: rest))
    with (quiet msg_id (Ok msg) && forallb (quiet msg_id) rest) in Hq.
  apply andb_true_iff in Hq as [Hmsg Hrest].
  pose proof (quiet_message_appends_nothing _ _ Hmsg) as Hno.
  cbn [drain].
  destruct (handle_message msg_id msg) as [[|fragment|]|]; try reflexivity.
  - apply IH, Hrest.
  - exfalso. apply (Hno fragment). reflexivity.
Qed.

(** C10. When the shell reply has a status other than ['error'] and every
    broadcast message of this request is a [status] message or a [stream]
    message whose text is empty once stripped, the report is the
    "no output" one. *)
Theorem execute_code_no_output (w : ExecuteWorld) (code msg_id : pystr)
    (s : State) (h : nat) (reply status : pyval) :
  kernel_client s = Some h →
  execute_answer w code = Ok msg_id →
  shell_answer w = Ok reply →
  reply_status reply = Ok status →
  eq_str status (lit "error") = false →
  forallb (quiet msg_id) (iopub_answers w) = true →
  execute_code w code s = (Ok NO_OUTPUT, s).
Proof.
  intros Hk Hid Hreply Hstatus Hne Hquiet.
  unfold execute_code. run_tool. rewrite Hk, Hid. cbn. rewrite Hreply. cbn.
  rewrite (drain_quiet _ _ _ Hquiet).
  unfold final_report. rewrite Hstatus. cbn. rewrite Hne. reflexivity.
Qed.

(** *** Strings *)

Lemma is_prefix_spec (p s : pystr) :
  is_prefix p s = true ↔ ∃ t, s = p ++ t.
Proof.
  revert s. induction p as [|a p IH]; intros s; cbn.
  - split; [intros _; exists s; reflexivity | reflexivity].
  - destruct s as [|b s].
    + split; [discriminate | intros [t Ht]; discriminate].
    + rewrite andb_true_iff, N.eqb_eq, IH. split.
      * intros [-> [t ->]]. exists t. reflexivity.
      * intros [t Ht]. injection Ht as -> ->. split; [reflexivity | exists t; reflexivity].
Qed.

(** X1. The substring test of [start_kernel] ([needle in text]) answers
    true exactly when the text is some prefix, then the needle, then some
    suffix. *)
Theorem contains_spec (needle hay : pystr) :
  contains needle hay = true ↔ ∃ pre post, hay = pre ++ needle ++ post.
Proof.
  split.
  - induction hay as [|a hay IH]; cbn [contains].
    + intros H. apply is_prefix_spec in H as [t Ht].
      exists [], t. exact Ht.
    + intros H. apply orb_true_iff in H as [H | H].
      * apply is_prefix_spec in H as [t Ht]. exists [], t. exact Ht.
      * destruct (IH H) as (pre & post & ->). exists (a :: pre), post. reflexivity.
  - intros (pre & post & ->). induction pre as [|a pre IH].
    + cbn [app]. destruct (needle ++ post) as [|b r] eqn:E.
      * cbn. apply is_prefix_spec. exists []. 
        destruct needle; [reflexivity | discriminate].
      * cbn [contains]. apply orb_true_iff. left. rewrite <- E.
        apply is_prefix_spec. exists post. reflexivity.
    + cbn [app contains]. apply orb_true_iff. right. exact IH.
Qed.

Lemma lstrip_spec (s : pystr) :
  ∃ pre, s = pre ++ lstrip s
         ∧ forallb py_isspace pre = true
         ∧ (∀ c, head (lstrip s) = Some c → py_isspace c = false).
Proof.
  induction s as [|a s (pre & Hs & Hpre & Hhead)]; cbn [lstrip].
  - exists []. repeat split. intros c Hc. discriminate.
  - destruct (py_isspace a) eqn:Ha.
    + exists (a :: pre). split; [cbn; congruence|]. split; [|exact Hhead].
      cbn. rewrite Ha. exact Hpre.
    + exists []. repeat split. intros c Hc. injection Hc as <-. exact Ha.
Qed.

Lemma forallb_rev {A} (f : A → bool) (l : list A) :
  forallb f (rev l) = forallb f l.
Proof.
  induction l as [|a l IH]; [reflexivity|]. cbn.
  rewrite forallb_app, IH. cbn. rewrite andb_true_r. apply andb_comm.
Qed.

(** What [s.strip()] returns: the input is white space, then the result,
    then white space, and the result neither starts nor ends with white
    space. *)
Lemma strip_spec (s : pystr) :
  ∃ pre post, s = pre ++ strip s ++ post
              ∧ forallb py_isspace pre = true
              ∧ forallb py_isspace post = true
              ∧ (∀ c, head (strip s) = Some c → py_isspace c = false)
              ∧ (∀ c, head (rev (strip s)) = Some c → py_isspace c = false).
Proof.
  unfold strip, rstrip.
  destruct (lstrip_spec s) as (pre & Hs & Hpre & Hhead).
  destruct (lstrip_spec (rev (lstrip s))) as (tsop & Hr & Htsop & Hlast).
  exists pre, (rev tsop).
  assert (Hmid : lstrip s = rev (lstrip (rev (lstrip s))) ++ rev tsop).
  { rewrite <- rev_app_distr, <- Hr, rev_involutive. reflexivity. }
  split; [rewrite <- Hmid; exact Hs|].
  split; [exact Hpre|]. split; [rewrite forallb_rev; exact Htsop|]. split.
  - intros c Hc. apply Hhead. rewrite Hmid.
    destruct (rev (lstrip (rev (lstrip s)))); [discriminate | exact Hc].
  - intros c Hc. apply Hlast. rewrite rev_involutive in Hc. exact Hc.
Qed.

(** *** The drain loop *)

(** X2. A fragment appended for a [stream] message is the text of the
    message without the white space around it: it is not empty and neither
    starts nor ends with white space. *)
Theorem stream_fragment_is_trimmed (msg_id : pystr) (msg fragment : pyval) :
  msg_type_is (lit "stream") msg = true →
  handle_message msg_id msg = Ok (Append fragment) →
  ∃ content text pre post t,
    py_get msg (lit "content") (PDict []) = Ok content
    ∧ py_get content (lit "text") (PStr []) = Ok (PStr text)
    ∧ fragment = PStr t ∧ t ≠ []
    ∧ text = pre ++ t ++ post
    ∧ forallb py_isspace pre = true ∧ forallb py_isspace post = true
    ∧ (∀ c, head t = Some c → py_isspace c = false)
    ∧ (∀ c, head (rev t) = Some c → py_isspace c = false).
Proof.
  unfold msg_type_is, handle_message. intros Htype Happ.
  destruct (parent_msg_id msg) as [v|]; [|discriminate]. cbn in Happ.
  destruct (eq_str v msg_id); [|discriminate]. cbn in Happ.
  destruct (py_get msg (lit "msg_type") PNone) as [t|]; [|discriminate].
  cbn in Happ. rewrite Htype in Happ.
  destruct (py_get msg (lit "content") (PDict [])) as [content|] eqn:Hcontent;
    [|discriminate].
  cbn in Happ.
  destruct (py_get content (lit "text") (PStr [])) as [text|] eqn:Htxt; [|discriminate].
  cbn in Happ. destruct text as [| | | |text| |]; try discriminate. cbn in Happ.
  destruct (strip text) as [|c r] eqn:Hstrip; [discriminate|].
  cbn in Happ. injection Happ as <-.
  destruct (strip_spec text) as (pre & post & Htext & Hpre & Hpost & Hhead & Hlast).
  rewrite Hstrip in Htext, Hhead, Hlast.
  exists content, text, pre, post, (c :: r).
  split; [reflexivity|]. split; [exact Htxt|]. split; [reflexivity|].
  split; [discriminate|]. split; [exact Htext|]. split; [exact Hpre|].
  split; [exact Hpost|]. split; [exact Hhead | exact Hlast].
Qed.

Lemma remove_from_sublist (old : pystr) (skip : nat) (s : pystr) :
  remove_from old skip s `sublist_of` s.
Proof.
  revert skip. induction s as [|c s IH]; intros skip; cbn [remove_from].
  - constructor.
  - destruct skip as [|k].
    + destruct (is_prefix old (c :: s)).
      * apply sublist_cons, IH.
      * apply sublist_skip, IH.
    + apply sublist_cons, IH.
Qed.

Lemma remove_from_no_start (c : N) (old s : pystr) :
  c ∉ s → remove_from (c :: old) 0 s = s.
Proof.
  induction s as [|b s IH]; intros Hnot; cbn [remove_from]; [reflexivity|].
  apply not_elem_of_cons in Hnot as [Hne Hnot].
  cbn [is_prefix]. destruct (N.eqb_spec c b) as [->|_]; [contradiction|].
  cbn. rewrite IH by exact Hnot. reflexivity.
Qed.

(** X3. Cleaning a traceback line only removes code points: the result is
    the line with some of them left out, in the same order, and a line
    without the escape character comes back unchanged. An item that is not
    a string raises. *)
Theorem clean_line_only_removes (line : pyval) :
  match line with
  | PStr s =>
      ∃ s', clean_line line = Ok (PStr s')
            ∧ s' `sublist_of` s
            ∧ (27%N ∉ s → s' = s)
  | _ => clean_line line = Raise (AttributeError line (lit "replace"))
  end.
Proof.
  destruct line as [| | | |s| |]; try reflexivity.
  unfold clean_line. cbn.
  eexists. split; [reflexivity|]. split.
  - etrans; [apply remove_from_sublist|].
    etrans; [apply remove_from_sublist|].
    etrans; [apply remove_from_sublist|]. apply remove_from_sublist.
  - intros Hnot. unfold ANSI_RED, ANSI_RESET, ANSI_BOLD_GREEN, ANSI_GREEN.
    rewrite (remove_from_no_start 27 (lit "[0;31m") s Hnot).
    rewrite (remove_from_no_start 27 (lit "[0m") s Hnot).
    rewrite (remove_from_no_start 27 (lit "[1;32m") s Hnot).
    apply (remove_from_no_start 27 (lit "[0;32m") s Hnot).
Qed.


Lemma drain_stop (msg_id : pystr) (pre post : list (result pyval))
    (poll : result pyval) (acc : list pyval) :
  stops_loop msg_id poll = true →
  drain msg_id (pre ++ poll :: post) acc = drain msg_id pre acc.
Proof.
  intros Hstop. revert acc.
  induction pre as [|[msg|e] pre IH]; intros acc; cbn [app drain].
  - destruct poll as [msg|e]; [|reflexivity]. cbn in Hstop.
    destruct (handle_message msg_id msg) as [[|fragment|]|]; try discriminate; reflexivity.
  - destruct (handle_message msg_id msg) as [[|fragment|]|]; try reflexivity; apply IH.
  - reflexivity.
Qed.

Lemma idle_stops (msg_id : pystr) (msg : pyval) :
  is_idle msg_id msg = true → handle_message msg_id msg = Ok Stop.
Proof.
  unfold is_idle, own, msg_type_is, handle_message. intros H.
  apply andb_true_iff in H as [H Hstate]. apply andb_true_iff in H as [Hown Htype].
  destruct (parent_msg_id msg) as [v|]; [|discriminate]. cbn.
  rewrite Hown. cbn.
  destruct (py_get msg (lit "msg_type") PNone) as [t|]; [|discriminate].
  apply eq_str_true in Htype. subst t. cbn.
  destruct (py_get msg (lit "content") (PDict [])) as [content|]; [|discriminate].
  cbn in Hstate |- *.
  vm_compute (eq_str (PStr (lit "status")) _).
  destruct (py_get content (lit "execution_state") PNone) as [state|]; [|discriminate].
  cbn. rewrite Hstate. reflexivity.
Qed.

(** X4. The drain loop ends at the first idle status of the request and at
    the first read that raises: whatever would have been read afterwards
    does not change what is collected. *)
Theorem drain_ignores_what_follows_idle (msg_id : pystr) (pre post : list (result pyval))
    (poll : result pyval) (acc : list pyval) :
  match poll with
  | Ok msg => is_idle msg_id msg = true
  | Raise _ => True
  end →
  drain msg_id (pre ++ poll :: post) acc = drain msg_id pre acc.
Proof.
  intros H. apply drain_stop. destruct poll as [msg|e]; [|reflexivity].
  cbn. rewrite (idle_stops _ _ H). reflexivity.
Qed.


(** *** execute_code, whatever the kernel answers *)

Lemma error_fragment_text (content fragment : pyval) :
  error_fragment content = Ok fragment → ∃ t, fragment = PStr (CROSS ++ t).
Proof.
  unfold error_fragment. intros H.
  destruct (py_get content (lit "ename") (PStr (lit "Error"))) as [n|]; [|discriminate].
  cbn in H.
  destruct (py_get content (lit "evalue") (PStr [])) as [v|]; [|discriminate].
  cbn in H.
  destruct (py_get content (lit "traceback") (PList [])) as [tb|]; [|discriminate].
  cbn in H.
  destruct (truthy tb).
  - destruct (py_iter tb) as [lines|]; [|discriminate]. cbn in H.
    destruct (clean_lines lines) as [clean|]; [|discriminate]. cbn in H.
    destruct (py_join NL clean) as [joined|]; [|discriminate]. cbn in H.
    injection H as <-. eexists. reflexivity.
  - cbn in H. injection H as <-. eexists. reflexivity.
Qed.

Lemma appended_shape (msg_id : pystr) (msg fragment : pyval) :
  handle_message msg_id msg = Ok (Append fragment) →
  truthy fragment = true
  ∧ (odd_result msg_id (Ok msg) = false → ∃ t, fragment = PStr t).
Proof.
  intros Happ. pose proof (appended_is_own _ _ _ Happ) as Hown.
  unfold odd_result, msg_type_is. rewrite Hown.
  unfold handle_message in Happ. unfold own in Hown.
  destruct (parent_msg_id msg) as [v|]; [|discriminate]. cbn in Happ.
  rewrite Hown in Happ. cbn in Happ.
  destruct (py_get msg (lit "msg_type") PNone) as [t|]; [|discriminate].
  cbn in Happ.
  destruct (py_get msg (lit "content") (PDict [])) as [content|]; [|discriminate].
  cbn in Happ |- *.
  destruct (eq_str t (lit "stream")) eqn:Hstream.
  { destruct (py_get content (lit "text") (PStr [])) as [text|]; [|discriminate].
    cbn in Happ. destruct (py_strip text) as [[|c r]|]; try discriminate.
    cbn in Happ. injection Happ as <-. split; [reflexivity | eauto]. }
  destruct (eq_str t (lit "execute_result")) eqn:Hresult.
  { destruct (py_get content (lit "data") (PDict [])) as [data|]; [|discriminate].
    cbn in Happ |- *.
    destruct (py_get data (lit "text/plain") (PStr [])) as [value|]; [|discriminate].
    cbn in Happ |- *.
    destruct (truthy value) eqn:Htruthy; [|discriminate].
    injection Happ as <-. split; [exact Htruthy|].
    destruct value; cbn in Htruthy |- *; intros Hodd; try congruence; eauto. }
  destruct (eq_str t (lit "error")) eqn:Herror.
  { destruct (error_fragment content) as [f|] eqn:Hf; [|discriminate].
    cbn in Happ. injection Happ as <-.
    destruct (error_fragment_text _ _ Hf) as [x ->]. split; [reflexivity | eauto]. }
  destruct (eq_str t (lit "status")); [|discriminate].
  destruct (py_get content (lit "execution_state") PNone) as [state|]; [|discriminate].
  cbn in Happ. destruct (eq_str state (lit "idle")); discriminate.
Qed.


Lemma all_strings {l : list pyval} :
  (∀ v, v ∈ l → truthy v = true ∧ ∃ t, v = PStr t) →
  ∃ texts, l = map PStr texts ∧ Forall (λ t, t ≠ []) texts.
Proof.
  induction l as [|v l IH]; intros H.
  - exists []. split; [reflexivity | constructor].
  - destruct (H v) as [Htruthy [t ->]]; [left|].
    destruct IH as (texts & -> & Hne); [intros u Hu; apply H; right; exact Hu|].
    exists (t :: texts). split; [reflexivity|]. constructor; [|exact Hne].
    intros ->. discriminate.
Qed.

Lemma py_join_strings (i : nat) (sep : pystr) (texts : list pystr) :
  py_join_from i sep (map PStr texts) = Ok (str_join sep texts).
Proof.
  revert i. induction texts as [|t texts IH]; intros i; [reflexivity|].
  cbn [map py_join_from str_join].
  destruct texts as [|u texts]; [reflexivity|].
  cbn [map] in IH |- *. rewrite IH. reflexivity.
Qed.

Lemma py_join_odd (i : nat) (sep : pystr) (texts : list pystr) (v : pyval) (rest : list pyval) :
  (∀ t, v ≠ PStr t) →
  py_join_from i sep (map PStr texts ++ v :: rest)
  = Raise (TypeError (JoinItem (i + length texts)) v).
Proof.
  intros Hv. revert i. induction texts as [|t texts IH]; intros i.
  - cbn. rewrite Nat.add_0_r. destruct v; try reflexivity. destruct (Hv s). reflexivity.
  - cbn [map app py_join_from length].
    destruct (map PStr texts ++ v :: rest) as [|x l] eqn:E.
    + destruct texts; discriminate.
    + rewrite IH. cbn. f_equal. f_equal. f_equal. lia.
Qed.

Lemma str_join_nonempty (sep t : pystr) (texts : list pystr) :
  t ≠ [] → str_join sep (t :: texts) ≠ [].
Proof.
  intros Ht. cbn. destruct texts; [exact Ht|].
  destruct t; [contradiction | discriminate].
Qed.

Lemma execute_code_connected (w : ExecuteWorld) (code : pystr) (s : State) (h : nat) :
  kernel_client s = Some h →
  execute_code w code s
  = (Ok (match (try! msg_id := execute_answer w code in
                try! reply := shell_answer w in
                final_report reply (drain msg_id (iopub_answers w) [])) with
         | Ok report => report
         | Raise e => CROSS ++ lit " Execution failed: " ++ exn_str e
         end), s).
Proof.
  intros Hk. unfold execute_code. run_tool. rewrite Hk.
  destruct (execute_answer w code) as [msg_id|]; cbn; [|reflexivity].
  destruct (shell_answer w) as [reply|]; cbn; [|reflexivity].
  destruct (final_report reply _); reflexivity.
Qed.


(** X7. With a reply whose status is not ['error'] and no [execute_result]
    of this request carrying a true value that is not a string, every
    collected fragment is a non-empty string and the report is these
    strings joined by newlines, in arrival order, or the "no output"
    report when there is none. *)
Theorem execute_code_joins_output (w : ExecuteWorld) (code msg_id : pystr)
    (s : State) (h : nat) (reply status : pyval) :
  kernel_client s = Some h →
  execute_answer w code = Ok msg_id →
  shell_answer w = Ok reply →
  reply_status reply = Ok status →
  eq_str status (lit "error") = false →
  existsb (odd_result msg_id) (iopub_answers w) = false →
  ∃ texts,
    drain msg_id (iopub_answers w) [] = map PStr texts
    ∧ Forall (λ t, t ≠ []) texts
    ∧ execute_code w code s
      = (Ok (match texts with
             | [] => NO_OUTPUT
             | _ :: _ => str_join NL texts
             end), s).
Proof.
  intros Hk Hid Hreply Hstatus Hne Hodd.
  destruct (@all_strings (drain msg_id (iopub_answers w) [])) as (texts & Htexts & Hnonempty).
  { intros v Hin.
    destruct (drain_origin _ _ _ _ Hin) as [Hnil | (msg & Hmsg & Happ)].
    - apply elem_of_nil in Hnil. contradiction.
    - destruct (appended_shape _ _ _ Happ) as [Htruthy Htext].
      split; [exact Htruthy|]. apply Htext.
      destruct (odd_result msg_id (Ok msg)) eqn:Hm; [|reflexivity].
      assert (Hex : existsb (odd_result msg_id) (iopub_answers w) = true).
      { apply existsb_exists. exists (Ok msg). split; [|exact Hm].
        apply list_elem_of_In. exact Hmsg. }
      congruence. }
  exists texts. split; [exact Htexts|]. split; [exact Hnonempty|].
  rewrite (execute_code_connected _ _ _ _ Hk), Hid. cbn. rewrite Hreply. cbn.
  unfold final_report. rewrite Hstatus. cbn. rewrite Hne, Htexts.
  destruct texts as [|t texts]; [reflexivity|].
  cbn [map]. unfold py_join.
  change (PStr t :: map PStr texts) with (map PStr (t :: texts)).
  rewrite (py_join_strings 0 NL (t :: texts)). reflexivity.
Qed.

(** X8. With a reply whose status is not ['error'], a collected fragment
    that is not a string (the value an [execute_result] carries under
    ['text/plain']) turns the whole report into "Execution failed" with
    the [TypeError] of the join at the position of the first such fragment;
    the output collected around it is lost. *)
Theorem execute_code_odd_result_fails (w : ExecuteWorld) (code msg_id : pystr)
    (s : State) (h : nat) (reply status : pyval)
    (texts : list pystr) (v : pyval) (rest : list pyval) :
  kernel_client s = Some h →
  execute_answer w code = Ok msg_id →
  shell_answer w = Ok reply →
  reply_status reply = Ok status →
  eq_str status (lit "error") = false →
  drain msg_id (iopub_answers w) [] = map PStr texts ++ v :: rest →
  (∀ t, v ≠ PStr t) →
  execute_code w code s
  = (Ok (CROSS ++ lit " Execution failed: "
         ++ exn_str (TypeError (JoinItem (length texts)) v)), s).
Proof.
  intros Hk Hid Hreply Hstatus Hne Hdrain Hv.
  rewrite (execute_code_connected _ _ _ _ Hk), Hid. cbn. rewrite Hreply. cbn.
  unfold final_report. rewrite Hstatus. cbn. rewrite Hne, Hdrain.
  destruct (map PStr texts ++ v :: rest) as [|x l] eqn:E.
  - destruct texts; discriminate.
  - rewrite <- E. unfold py_join. rewrite (py_join_odd 0 NL texts v rest Hv). reflexivity.
Qed.

(** *** shutdown_kernel and interrupt_kernel, whatever the world answers *)

(** Split the calls made during a run into the last one and those before
    it. *)
Ltac split_last_call :=
  match goal with
  | |- ∃ before, ?l = before ++ _ ∧ _ =>
      exists (removelast l); cbn; split; [reflexivity | repeat constructor; discriminate]
  end.

(** X9. With a client stored, [shutdown_kernel] returns a report on every
    path and ends every path with exactly one [stop_channels] on the stored
    client, after any signalling of the process: the connection slot is
    empty afterwards exactly when that call returned (and the client's
    channels are then marked stopped), and the process slot is never
    changed. *)
Theorem shutdown_always_disconnects (w : ShutdownWorld) (s : State) (h : nat) :
  kernel_client s = Some h →
  let s' := snd (shutdown_kernel w s) in
  (∃ report, fst (shutdown_kernel w s) = Ok report)
  ∧ kernel_process s' = kernel_process s
  ∧ (∃ before, new_calls s s' = before ++ [StopChannels h]
               ∧ Forall (λ c, c ≠ StopChannels h) before)
  ∧ kernel_client s' = match disconnect_answer w with
                       | Ok _ => None
                       | Raise _ => Some h
                       end
  ∧ clients s' = match disconnect_answer w with
                 | Ok _ => alter stopped h (clients s)
                 | Raise _ => clients s
                 end.
Proof.
  intros Hk. destruct s as [kc kp cs tr]. cbn in Hk. subst kc.
  unfold new_calls, shutdown_kernel, process_alive, terminate_then_kill, disconnect_kernel.
  run_tool.
  destruct (shutdown_answer w) as [[]|?]; cbn.
  { destruct (disconnect_answer w) as [[]|?]; cbn;
      rewrite <- !app_assoc, drop_app_length; cbn;
      (split; [eexists; reflexivity|]); (split; [reflexivity|]);
      (split; [split_last_call|]); split; reflexivity. }
  destruct kp as [p|]; cbn.
  2: { destruct (disconnect_answer w) as [[]|?]; cbn;
         rewrite <- !app_assoc, drop_app_length; cbn;
         (split; [eexists; reflexivity|]); (split; [reflexivity|]);
         (split; [split_last_call|]); split; reflexivity. }
  destruct (poll_answer w) as [[code|]|?]; cbn;
    [ | destruct IS_WINDOWS; cbn;
        (destruct (terminate_answer w) as [[]|?]; cbn;
         [destruct (wait5_answer w) as [[]|[]]; cbn;
          try (destruct (kill_answer w) as [[]|?]; cbn;
               [destruct (wait_answer w) as [[]|?]; cbn|])|]) | ];
    (destruct (disconnect_answer w) as [[]|?]; cbn;
     rewrite <- !app_assoc, drop_app_length; cbn;
     (split; [eexists; reflexivity|]); (split; [reflexivity|]);
     (split; [split_last_call|]); split; reflexivity).
Qed.

(** X10. [shutdown_kernel] signals the worker only as a fallback: a
    [terminate()] is made only after the protocol request raised, on a
    tracked process that [poll()] found running, and a [kill()] only after
    that [terminate()] returned and the five-second wait timed out. *)
Theorem shutdown_signals_only_as_fallback (w : ShutdownWorld) (s : State) :
  let made := new_calls s (snd (shutdown_kernel w s)) in
  (Terminate ∈ made →
     (∃ e, shutdown_answer w = Raise e)
     ∧ is_Some (kernel_client s) ∧ is_Some (kernel_process s)
     ∧ poll_answer w = Ok None)
  ∧ (Kill ∈ made →
       Terminate ∈ made
       ∧ terminate_answer w = Ok tt
       ∧ ∃ m, wait5_answer w = Raise (TimeoutExpired m)).
Proof.
  destruct s as [[h|] kp cs tr];
    unfold new_calls, shutdown_kernel, process_alive, terminate_then_kill, disconnect_kernel;
    run_tool.
  2: { rewrite drop_all. split; intros Hin; inversion Hin. }
  assert (Hlist : ∀ (c : Call) (l : list Call),
             c ∈ l → Forall (λ x, x ≠ c) l → False).
  { intros c l Hin Hall. rewrite Forall_forall in Hall.
    apply (Hall c); [apply list_elem_of_In; exact Hin | reflexivity]. }
  destruct (shutdown_answer w) as [[]|?]; cbn.
  { destruct (disconnect_answer w) as [[]|?]; cbn;
      rewrite <- !app_assoc, drop_app_length; cbn;
      split; intros Hin; exfalso; apply (Hlist _ _ Hin); repeat constructor; discriminate. }
  destruct kp as [p|]; cbn.
  2: { destruct (disconnect_answer w) as [[]|?]; cbn;
         rewrite <- !app_assoc, drop_app_length; cbn;
         split; intros Hin; exfalso; apply (Hlist _ _ Hin); repeat constructor; discriminate. }
  destruct (poll_answer w) as [[code|]|?]; cbn;
    [ | destruct IS_WINDOWS; cbn;
        (destruct (terminate_answer w) as [[]|?]; cbn;
         [destruct (wait5_answer w) as [[]|[]]; cbn;
          try (destruct (kill_answer w) as [[]|?]; cbn;
               [destruct (wait_answer w) as [[]|?]; cbn|])|]) | ];
    (destruct (disconnect_answer w) as [[]|?]; cbn;
     rewrite <- !app_assoc, drop_app_length; cbn;
     split; intros Hin;
     first [ exfalso; apply (Hlist _ _ Hin); repeat constructor; discriminate
           | repeat split; eauto;
             try (apply list_elem_of_In; cbn; tauto) ]).
Qed.

(** X11. [interrupt_kernel] returns a report and changes neither slot nor
    any client; on Windows it makes no call at all; elsewhere it sends
    SIGINT only after the protocol interrupt raised, to a tracked process
    that [poll()] found running. *)
Theorem interrupt_only_signals (w : InterruptWorld) (s : State) :
  let s' := snd (interrupt_kernel w s) in
  (∃ report, fst (interrupt_kernel w s) = Ok report)
  ∧ kernel_client s' = kernel_client s
  ∧ kernel_process s' = kernel_process s
  ∧ clients s' = clients s
  ∧ (IS_WINDOWS = true → s' = s)
  ∧ (SendSigint ∈ new_calls s s' →
       IS_WINDOWS = false
       ∧ (∃ e, interrupt_answer w = Raise e)
       ∧ is_Some (kernel_process s)
       ∧ interrupt_poll_answer w = Ok None).
Proof.
  assert (Hlist : ∀ (c : Call) (l : list Call),
             c ∈ l → Forall (λ x, x ≠ c) l → False).
  { intros c l Hin Hall. rewrite Forall_forall in Hall.
    apply (Hall c); [apply list_elem_of_In; exact Hin | reflexivity]. }
  destruct s as [[h|] kp cs tr]; unfold new_calls, interrupt_kernel; run_tool;
    [destruct IS_WINDOWS; cbn;
     [|destruct (interrupt_answer w) as [[]|?]; cbn;
       [|destruct kp as [p|]; cbn;
         [destruct (interrupt_poll_answer w) as [[code|]|?]; cbn;
          [| destruct (sigint_answer w) as [[]|?]; cbn |]|]]]|];
    rewrite <- ?app_assoc, ?drop_app_length, ?drop_all; cbn;
    (split; [eexists; reflexivity|]); (split; [reflexivity|]);
    (split; [reflexivity|]); (split; [reflexivity|]);
    (split; [intros Hw; first [reflexivity | discriminate Hw]|]);
    intros Hin;
    first [ exfalso; apply (Hlist _ _ Hin); repeat constructor; discriminate
          | repeat split; eauto ].
Qed.

(** *** connect_to_kernel, whatever the world answers *)

Lemma lookup_fresh_client (l : list Client) (n : nat) (f g : Client → Client) :
  length l = n →
  alter f n (alter g n (l ++ [fresh_client])) !! n = Some (f (g fresh_client)).
Proof.
  intros <-. rewrite !list_lookup_alter_eq, lookup_app_r by lia.
  rewrite Nat.sub_diag. reflexivity.
Qed.

(** X12. Every report of [connect_to_kernel] starts with the success or
    the failure marker, and the success marker is only returned when the
    descriptor was loaded, the readiness wait returned and the descriptor
    has the fields of the report: the connection slot then holds a client
    created by this call, with that descriptor and running channels. *)
Theorem connect_success_means_ready (w : ConnectWorld) (connection_file : option pystr)
    (s : State) :
  ∃ report,
    fst (connect_to_kernel w connection_file s) = Ok report
    ∧ (is_prefix CROSS report = true
       ∨ (is_prefix CHECK report = true
          ∧ ∃ path info,
              expanduser w (resolve_connection_file (resolve_env w) connection_file) = Ok path
              ∧ json_load w path = Ok info
              ∧ ready_answer w = Ok tt
              ∧ connected_report info path = Ok report
              ∧ let h := length (clients s) in
                let s' := snd (connect_to_kernel w connection_file s) in
                kernel_client s' = Some h
                ∧ clients s' !! h
                  = Some {| channels_running := true; loaded_info := Some info |})).
Proof.
  assert (Hmarker : ∀ info path report,
             connected_report info path = Ok report → is_prefix CHECK report = true).
  { intros info path report Hreport. unfold connected_report in Hreport.
    destruct (py_getitem info (lit "ip")); [|discriminate]. cbn in Hreport.
    destruct (py_getitem info (lit "shell_port")); [|discriminate]. cbn in Hreport.
    destruct (py_getitem info (lit "key")) as [k|]; [|discriminate]. cbn in Hreport.
    destruct (py_slice_to 8 k); [|discriminate]. cbn in Hreport.
    injection Hreport as <-. reflexivity. }
  destruct s as [kc kp cs tr]. unfold connect_to_kernel. run_tool.
  destruct (expanduser w _) as [path|?] eqn:Hpath; cbn;
    [|eexists; split; [reflexivity | left; reflexivity]].
  destruct (path_exists w path) as [[|]|?]; cbn;
    try (eexists; split; [reflexivity | left; reflexivity]).
  destruct (json_load w path) as [info|?] eqn:Hinfo; cbn;
    [|eexists; split; [reflexivity | left; reflexivity]].
  destruct kc as [old|]; cbn;
    [destruct (stop_answer w) as [[]|?]; cbn;
     [|eexists; split; [reflexivity | left; reflexivity]]|];
    (destruct (load_info_answer w) as [[]|?]; cbn;
     [|eexists; split; [reflexivity | left; reflexivity]]);
    (destruct (start_answer w) as [[]|?]; cbn;
     [|eexists; split; [reflexivity | left; reflexivity]]);
    (destruct (ready_answer w) as [[]|?]; cbn;
     [|eexists; split; [reflexivity | left; reflexivity]]);
    (destruct (connected_report info path) as [report|?] eqn:Hreport; cbn;
     [|eexists; split; [reflexivity | left; reflexivity]]);
    (exists report; split; [reflexivity|]; right;
     split; [exact (Hmarker _ _ _ Hreport)|];
     exists path, info;
     split; [reflexivity|]; split; [exact Hinfo|]; split; [reflexivity|];
     split; [exact Hreport|];
     rewrite ?length_alter; split; [reflexivity|];
     apply lookup_fresh_client; rewrite ?length_alter; reflexivity).
Qed.

(** X13. The success report shows the key only through its first eight
    code points: it ends with that prefix followed by three dots (and the
    Windows notice), and a descriptor with the same address and port whose
    key agrees on the prefix gives the same report. *)
Theorem connected_report_shows_key_prefix (info ip port : pyval) (path k : pystr) :
  py_getitem info (lit "ip") = Ok ip →
  py_getitem info (lit "shell_port") = Ok port →
  py_getitem info (lit "key") = Ok (PStr k) →
  connected_report info path
  = Ok (CHECK ++ lit " Connected to IPython kernel at " ++ py_str ip ++ lit ":"
        ++ py_str port ++ NL ++ FOLDER ++ lit " Connection file: " ++ path
        ++ NL ++ KEY ++ lit " Using key: " ++ firstn 8 k ++ lit "..."
        ++ (if IS_WINDOWS then WINDOWS_NOTICE else []))
  ∧ ∀ info' k',
      py_getitem info' (lit "ip") = Ok ip →
      py_getitem info' (lit "shell_port") = Ok port →
      py_getitem info' (lit "key") = Ok (PStr k') →
      firstn 8 k' = firstn 8 k →
      connected_report info' path = connected_report info path.
Proof.
  intros Hip Hport Hk. unfold connected_report.
  rewrite Hip, Hport, Hk. cbn. split; [reflexivity|].
  intros info' k' Hip' Hport' Hk' Hprefix.
  rewrite Hip', Hport', Hk'. cbn. rewrite Hprefix. reflexivity.
Qed.

Lemma alter_last {A} (f : A → A) (l : list A) (x : A) :
  alter f (length l) (l ++ [x]) = l ++ [f x].
Proof.
  induction l as [|y l IH]; cbn; [reflexivity|].
  f_equal. exact IH.
Qed.

(** What one [connect_to_kernel] does to the state: nothing to the slots
    and clients, or one client more, stored, with the former one stopped. *)
Lemma connect_effect (w : ConnectWorld) (connection_file : option pystr) (s : State) :
  let s' := snd (connect_to_kernel w connection_file s) in
  (∃ report, fst (connect_to_kernel w connection_file s) = Ok report)
  ∧ kernel_process s' = kernel_process s
  ∧ ((kernel_client s' = kernel_client s ∧ clients s' = clients s)
     ∨ (kernel_client s' = Some (length (clients s))
        ∧ ∃ c, clients s' = prior_stopped s ++ [c])).
Proof.
  destruct s as [kc kp cs tr]. unfold prior_stopped, connect_to_kernel. run_tool.
  destruct (expanduser w _) as [path|?]; cbn;
    [|split; [eexists; reflexivity|]; split; [reflexivity|]; left; split; reflexivity].
  destruct (path_exists w path) as [[|]|?]; cbn;
    try (split; [eexists; reflexivity|]; split; [reflexivity|]; left; split; reflexivity).
  destruct (json_load w path) as [info|?]; cbn;
    [|split; [eexists; reflexivity|]; split; [reflexivity|]; left; split; reflexivity].
  destruct kc as [old|]; cbn;
    [destruct (stop_answer w) as [[]|?]; cbn;
     [|split; [eexists; reflexivity|]; split; [reflexivity|]; left; split; reflexivity]|];
    (destruct (load_info_answer w) as [[]|?]; cbn;
     [destruct (start_answer w) as [[]|?]; cbn;
      [destruct (ready_answer w) as [[]|?]; cbn;
       [destruct (connected_report info path); cbn|]|]|]);
    (split; [eexists; reflexivity|]; split; [reflexivity|]; right;
     rewrite ?alter_last, ?length_alter; split; [reflexivity|]; eexists; reflexivity).
Qed.

Lemma connect_preserves_session_ok (w : ConnectWorld) (connection_file : option pystr)
    (s : State) :
  session_ok s → session_ok (snd (connect_to_kernel w connection_file s)).
Proof.
  intros [Hwf Hone].
  destruct (connect_effect w connection_file s) as (_ & _ & [[Hc Hl] | [Hc [c Hl]]]).
  - split.
    + intros h. rewrite Hc, Hl. apply Hwf.
    + intros h x. rewrite Hc, Hl. apply Hone.
  - assert (Hlen : length (prior_stopped s) = length (clients s)).
    { unfold prior_stopped. destruct (kernel_client s); [apply length_alter | reflexivity]. }
    split.
    + intros h. rewrite Hc, Hl, length_app, Hlen. cbn. intros [= <-]. lia.
    + intros h x. rewrite Hc, Hl. intros Hx Hrun. f_equal.
      destruct (decide (h = length (clients s))) as [->|Hne]; [reflexivity|exfalso].
      apply lookup_new_client in Hx; [|rewrite Hlen; exact Hne].
      unfold prior_stopped in Hx. destruct (kernel_client s) as [old|] eqn:Hk.
      * rewrite list_lookup_alter in Hx. destruct (decide (old = h)) as [->|Hoh].
        -- destruct (clients s !! h); [|discriminate]. injection Hx as <-. discriminate.
        -- specialize (Hone h x Hx Hrun). congruence.
      * specialize (Hone h x Hx Hrun). congruence.
Qed.

(** X14. [connect_to_kernel] never rolls back: once the new client object
    has been created it is what the connection slot holds when the call
    returns, also when loading the descriptor into it, opening the
    channels, the readiness wait or the writing of the report fails; when
    no client was created, slot and client objects are untouched. The
    process slot is never changed. *)
Theorem connect_keeps_created_client (w : ConnectWorld) (connection_file : option pystr)
    (s : State) :
  let s' := snd (connect_to_kernel w connection_file s) in
  kernel_process s' = kernel_process s
  ∧ (∀ h, NewClient h ∈ new_calls s s' →
       h = length (clients s)
       ∧ kernel_client s' = Some h
       ∧ length (clients s') = S (length (clients s)))
  ∧ ((∀ h, NewClient h ∉ new_calls s s') →
     kernel_client s' = kernel_client s ∧ clients s' = clients s).
Proof.
  destruct s as [kc kp cs tr]. unfold new_calls, connect_to_kernel. run_tool.
  destruct (expanduser w _) as [path|?]; cbn;
    [|rewrite drop_all; split; [reflexivity|]; split;
      [intros h Hin; inversion Hin | intros _; split; reflexivity]].
  destruct (path_exists w path) as [[|]|?]; cbn;
    try (rewrite drop_all; split; [reflexivity|]; split;
         [intros h Hin; inversion Hin | intros _; split; reflexivity]).
  destruct (json_load w path) as [info|?]; cbn;
    [|rewrite drop_all; split; [reflexivity|]; split;
      [intros h Hin; inversion Hin | intros _; split; reflexivity]].
  destruct kc as [old|]; cbn;
    [destruct (stop_answer w) as [[]|?]; cbn;
     [|rewrite drop_app_length; split; [reflexivity|]; split;
       [intros h Hin; apply list_elem_of_singleton in Hin; discriminate
       | intros _; split; reflexivity]]|];
    (destruct (load_info_answer w) as [[]|?]; cbn;
     [destruct (start_answer w) as [[]|?]; cbn;
      [destruct (ready_answer w) as [[]|?]; cbn;
       [destruct (connected_report info path); cbn|]|]|]);
    rewrite <- ?app_assoc, ?drop_app_length; cbn;
    rewrite ?length_alter, ?length_app, ?length_alter; cbn;
    (split; [reflexivity|]; split;
     [ intros h Hin;
       repeat (apply elem_of_cons in Hin as [Hin|Hin]; [try discriminate|]);
       try (apply elem_of_nil in Hin; contradiction);
       (injection Hin as ->; split; [reflexivity|]; split; [reflexivity | lia])
     | intros Hnone; exfalso; apply (Hnone (length cs));
       apply list_elem_of_In; cbn; tauto ]).
Qed.

(** *** start_kernel *)

Lemma launch_spawn (w : StartWorld) (connection_path : pystr) (s : State) :
  launch w false connection_path s
  = match spawn_answer w connection_path with
    | Ok p => (Ok None, set_process (Some p) s)
    | Raise e => (Raise e, s)
    end.
Proof.
  unfold launch, spawn_answer, set_kernel_process. run_tool.
  destruct IS_WINDOWS; cbn.
  - destruct (mkdtemp_answer w) as [dir|]; cbn; [|reflexivity].
    destruct (write_answer w _ _) as [[]|]; cbn; [|reflexivity].
    destruct (popen_answer w _); reflexivity.
  - destruct (popen_answer w _); reflexivity.
Qed.

Lemma launch_dry_run (w : StartWorld) (connection_path : pystr) (s : State) :
  launch w true connection_path s
  = (if IS_WINDOWS then
       match mkdtemp_answer w with
       | Ok _ => Ok (Some (lit "Would run Windows batch file with content:" ++ NL
                           ++ batch_content (sys_executable w) connection_path))
       | Raise e => Raise e
       end
     else Ok (Some (lit "Would run command: "
                    ++ str_join (lit " ") (unix_command connection_path))), s).
Proof.
  unfold launch. run_tool. destruct IS_WINDOWS; cbn; [|reflexivity].
  destruct (mkdtemp_answer w); reflexivity.
Qed.

(** X15. A dry run of [start_kernel] returns a report and leaves the
    whole state as it was: nothing is spawned, stored or connected. With
    the descriptor file present the report is, off Windows, the command
    line of the kernel on one line, and on Windows the content of the batch
    file (provided the temporary directory could be made). *)
Theorem start_kernel_dry_run (w : StartWorld) (connection_file : option pystr) (s : State) :
  ∃ report,
    start_kernel w connection_file true s = (Ok report, s)
    ∧ ∀ path,
        start_expanduser w (resolve_connection_file (start_resolve_env w) connection_file)
          = Ok path →
        start_path_exists w path = Ok true →
        (IS_WINDOWS = false →
         report = lit "Would run command: ipython kernel --ConnectionFileMixin.connection_file="
                  ++ path
                  ++ lit " --InteractiveShellApp.extensions=['autoreload'] --InteractiveShellApp.exec_lines=['%autoreload 2']")
        ∧ (IS_WINDOWS = true → ∀ dir, mkdtemp_answer w = Ok dir →
           report = lit "Would run Windows batch file with content:" ++ NL
                    ++ batch_content (sys_executable w) path).
Proof.
  unfold start_kernel, catch, bind, lift, ret.
  destruct (start_expanduser w _) as [path|?]; cbn.
  2: { eexists. split; [reflexivity|]. intros p Hp. discriminate Hp. }
  destruct (start_path_exists w path) as [[|]|?] eqn:Hex; cbn.
  2,3: eexists; split; [reflexivity|]; intros p [= <-] Hfound; congruence.
  rewrite launch_dry_run. destruct IS_WINDOWS.
  - destruct (mkdtemp_answer w) as [dir|?]; cbn.
    + eexists. split; [reflexivity|]. intros p [= <-] _.
      split; [discriminate | reflexivity].
    + eexists. split; [reflexivity|]. intros p [= <-] _.
      split; [discriminate | intros _ d Hd; discriminate Hd].
  - cbn. eexists. split; [reflexivity|]. intros p [= <-] _.
    split; [intros _ | discriminate].
    unfold unix_command. cbn [str_join].
    rewrite <- !app_assoc. reflexivity.
Qed.

(** What one [start_kernel] does to the state: nothing, or the spawned
    process is stored, or it is stored and [connect_to_kernel] is run on
    the same path. *)
Lemma start_kernel_effect (w : StartWorld) (connection_file : option pystr)
    (dry_run : bool) (s : State) :
  (∃ report, fst (start_kernel w connection_file dry_run s) = Ok report)
  ∧ (snd (start_kernel w connection_file dry_run s) = s
     ∨ ∃ path p,
         dry_run = false
         ∧ start_expanduser w
             (resolve_connection_file (start_resolve_env w) connection_file) = Ok path
         ∧ start_path_exists w path = Ok true
         ∧ spawn_answer w path = Ok p
         ∧ (snd (start_kernel w connection_file dry_run s) = set_process (Some p) s
            ∨ snd (start_kernel w connection_file dry_run s)
              = snd (connect_to_kernel (connect_answers w) (Some path)
                       (set_process (Some p) s)))).
Proof.
  unfold start_kernel, catch, bind, lift, ret.
  destruct (start_expanduser w _) as [path|?] eqn:Hpath; cbn;
    [|split; [eexists; reflexivity | left; reflexivity]].
  destruct (start_path_exists w path) as [[|]|?] eqn:Hex; cbn;
    try (split; [eexists; reflexivity | left; reflexivity]).
  destruct dry_run.
  { rewrite launch_dry_run. destruct IS_WINDOWS; [destruct (mkdtemp_answer w)|]; cbn;
      (split; [eexists; reflexivity | left; reflexivity]). }
  rewrite launch_spawn.
  destruct (spawn_answer w path) as [p|?] eqn:Hspawn; cbn;
    [|split; [eexists; reflexivity | left; reflexivity]].
  pose proof (connect_effect (connect_answers w) (Some path) (set_process (Some p) s))
    as ([connect_result Hresult] & Hprocess & _).
  unfold supervise, tracked_pid, get_kernel_process, bind, lift, ret.
  destruct (connect_to_kernel (connect_answers w) (Some path) (set_process (Some p) s))
    as [r t] eqn:Hconnect.
  cbn in Hresult, Hprocess. subst r.
  assert (Hdone : ∀ t', t' = set_process (Some p) s ∨ t' = t →
             t' = s
             ∨ ∃ path0 p0,
                 false = false
                 ∧ Ok path = Ok path0
                 ∧ start_path_exists w path0 = Ok true
                 ∧ spawn_answer w path0 = Ok p0
                 ∧ (t' = set_process (Some p0) s
                    ∨ t' = snd (connect_to_kernel (connect_answers w) (Some path0)
                                  (set_process (Some p0) s)))).
  { intros t' Ht'. right. exists path, p. rewrite Hconnect.
    repeat split; assumption. }
  destruct (start_poll_answer w) as [[code|]|?]; cbn.
  - destruct (communicate_answer w) as [[out err]|?]; cbn;
      [|split; [eexists; reflexivity | apply Hdone; left; reflexivity]].
    destruct (decode_pipe w out) as [stdout_text|?]; cbn;
      [|split; [eexists; reflexivity | apply Hdone; left; reflexivity]].
    destruct (decode_pipe w err) as [stderr_text|?]; cbn;
      [|split; [eexists; reflexivity | apply Hdone; left; reflexivity]].
    destruct (contains _ stderr_text || contains _ stderr_text); cbn.
    + rewrite Hconnect. cbn.
      split; [eexists; reflexivity | apply Hdone; right; reflexivity].
    + split; [eexists; reflexivity | apply Hdone; left; reflexivity].
  - rewrite Hconnect. cbn. rewrite Hprocess. cbn.
    split; [eexists; reflexivity | apply Hdone; right; reflexivity].
  - split; [eexists; reflexivity | apply Hdone; left; reflexivity].
Qed.


(** X17. When the process is spawned, [start_kernel] goes on to
    [connect_to_kernel] on the same path in two cases: the process is still
    running after the pause, or it has exited with "Address already in use"
    or "ZMQError" in its standard error. The report is then the "Started"
    text, respectively the "already running" notice, followed by the report
    of that connect, whether or not the connect succeeded, and the state is
    the one that connect leaves after the spawned process was stored. *)
Theorem start_kernel_connects (w : StartWorld) (connection_file : option pystr)
    (s : State) (path : pystr) (p : Process) :
  start_expanduser w (resolve_connection_file (start_resolve_env w) connection_file)
    = Ok path →
  start_path_exists w path = Ok true →
  spawn_answer w path = Ok p →
  let connected :=
    connect_to_kernel (connect_answers w) (Some path) (set_process (Some p) s) in
  ∃ connect_result,
    fst connected = Ok connect_result
    ∧ (start_poll_answer w = Ok None →
       start_kernel w connection_file false s
       = (Ok (CHECK ++ lit " Started IPython kernel (PID: " ++ py_str (PInt (pid p))
              ++ lit ")" ++ NL ++ FOLDER ++ lit " Using connection file: " ++ path
              ++ NL ++ connect_result),
          snd connected))
    ∧ (∀ code out err stdout_text stderr_text,
         start_poll_answer w = Ok (Some code) →
         communicate_answer w = Ok (out, err) →
         decode_pipe w out = Ok stdout_text →
         decode_pipe w err = Ok stderr_text →
         contains (lit "Address already in use") stderr_text
         || contains (lit "ZMQError") stderr_text = true →
         start_kernel w connection_file false s
         = (Ok (ALREADY_RUNNING ++ NL ++ connect_result), snd connected)).
Proof.
  intros Hpath Hex Hspawn connected. subst connected.
  pose proof (connect_effect (connect_answers w) (Some path) (set_process (Some p) s))
    as ([connect_result Hresult] & Hprocess & _).
  destruct (connect_to_kernel (connect_answers w) (Some path) (set_process (Some p) s))
    as [r t] eqn:Hconnect.
  cbn in Hresult, Hprocess. subst r.
  exists connect_result. split; [reflexivity|].
  unfold start_kernel, catch, bind, lift, ret. rewrite Hpath. cbn. rewrite Hex. cbn.
  rewrite launch_spawn, Hspawn. cbn.
  unfold supervise, tracked_pid, get_kernel_process, bind, lift, ret. split.
  - intros ->. cbn. rewrite Hconnect. cbn. rewrite Hprocess. reflexivity.
  - intros code out err stdout_text stderr_text -> -> Hout Herr Hsign. cbn.
    rewrite Hout. cbn. rewrite Herr. cbn. rewrite Hsign, Hconnect. reflexivity.
Qed.

(** X18. When the spawned process has exited after the pause and its
    standard error has neither signature, [start_kernel] reports "Kernel
    failed to start" with the exit code, then the standard output and the
    standard error when they are not empty; no connection is attempted, and
    the state only changes in that the exited process is now the tracked
    one. *)
Theorem start_kernel_reports_exit (w : StartWorld) (connection_file : option pystr)
    (s : State) (path : pystr) (p : Process) (code : Z)
    (out err : option (list N)) (stdout_text stderr_text : pystr) :
  start_expanduser w (resolve_connection_file (start_resolve_env w) connection_file)
    = Ok path →
  start_path_exists w path = Ok true →
  spawn_answer w path = Ok p →
  start_poll_answer w = Ok (Some code) →
  communicate_answer w = Ok (out, err) →
  decode_pipe w out = Ok stdout_text →
  decode_pipe w err = Ok stderr_text →
  contains (lit "Address already in use") stderr_text
  || contains (lit "ZMQError") stderr_text = false →
  start_kernel w connection_file false s
  = (Ok (CROSS ++ lit " Kernel failed to start" ++ NL
         ++ lit "Exit code: " ++ py_str (PInt code)
         ++ (if nonempty stdout_text then NL ++ lit "Stdout: " ++ stdout_text else [])
         ++ (if nonempty stderr_text then NL ++ lit "Stderr: " ++ stderr_text else [])),
     set_process (Some p) s).
Proof.
  intros Hpath Hex Hspawn Hpoll Hcomm Hout Herr Hsign.
  unfold start_kernel, catch, bind, lift, ret. rewrite Hpath. cbn. rewrite Hex. cbn.
  rewrite launch_spawn, Hspawn. cbn.
  unfold supervise, bind, lift, ret. rewrite Hpoll. cbn. rewrite Hcomm. cbn.
  rewrite Hout. cbn. rewrite Herr. cbn. rewrite Hsign.
  unfold exit_details.
  destruct (nonempty stdout_text), (nonempty stderr_text);
    rewrite <- ?app_assoc, ?app_nil_r; reflexivity.
Qed.

(** *** Sessions *)

Lemma execute_code_effect (w : ExecuteWorld) (code : pystr) (s : State) :
  ∃ report, execute_code w code s = (Ok report, s).
Proof.
  destruct (kernel_client s) as [h|] eqn:Hk.
  - rewrite (execute_code_connected _ _ _ _ Hk). eexists. reflexivity.
  - unfold execute_code. run_tool. rewrite Hk. eexists. reflexivity.
Qed.

Lemma kernel_status_effect (connection_info : result pyval) (s : State) :
  ∃ report, kernel_status connection_info s = (Ok report, s).
Proof.
  unfold kernel_status. run_tool. destruct (kernel_client s); [|eexists; reflexivity].
  destruct connection_info as [info|]; cbn; [|eexists; reflexivity].
  destruct (py_getitem info (lit "ip")); cbn; [|eexists; reflexivity].
  destruct (py_getitem info (lit "shell_port")); cbn; eexists; reflexivity.
Qed.

Lemma disconnect_kernel_effect (a : result unit) (s : State) :
  let s' := snd (disconnect_kernel a s) in
  (∃ report, fst (disconnect_kernel a s) = Ok report)
  ∧ kernel_process s' = kernel_process s
  ∧ slot_kept_or_released s s'.
Proof.
  pose proof (disconnect_kernel_cases a s) as H. unfold slot_kept_or_released.
  destruct (kernel_client s) as [h|] eqn:Hk; [destruct a|]; rewrite H; cbn;
    (split; [eexists; reflexivity|]; split; [reflexivity|]).
  - right. exists h. repeat split; assumption.
  - left. split; [congruence | reflexivity].
  - left. split; [congruence | reflexivity].
Qed.

Lemma shutdown_kernel_effect (w : ShutdownWorld) (s : State) :
  let s' := snd (shutdown_kernel w s) in
  (∃ report, fst (shutdown_kernel w s) = Ok report)
  ∧ kernel_process s' = kernel_process s
  ∧ slot_kept_or_released s s'.
Proof.
  destruct s as [[h|] kp cs tr];
    unfold slot_kept_or_released, shutdown_kernel, process_alive, terminate_then_kill,
      disconnect_kernel; run_tool;
    [|split; [eexists; reflexivity|]; split; [reflexivity|]; left; split; reflexivity].
  destruct (shutdown_answer w) as [[]|?]; cbn;
    [|destruct kp as [p|]; cbn;
      [destruct (poll_answer w) as [[code|]|?]; cbn;
       [ | destruct IS_WINDOWS; cbn;
           (destruct (terminate_answer w) as [[]|?]; cbn;
            [destruct (wait5_answer w) as [[]|[]]; cbn;
             try (destruct (kill_answer w) as [[]|?]; cbn;
                  [destruct (wait_answer w) as [[]|?]; cbn|])|]) | ]|]];
    (destruct (disconnect_answer w) as [[]|?]; cbn;
     (split; [eexists; reflexivity|]); (split; [reflexivity|]);
     [right; exists h; repeat split | left; split; reflexivity]).
Qed.

Lemma interrupt_kernel_effect (w : InterruptWorld) (s : State) :
  let s' := snd (interrupt_kernel w s) in
  (∃ report, fst (interrupt_kernel w s) = Ok report)
  ∧ kernel_process s' = kernel_process s
  ∧ slot_kept_or_released s s'.
Proof.
  destruct s as [[h|] kp cs tr]; unfold slot_kept_or_released, interrupt_kernel; run_tool;
    [destruct IS_WINDOWS; cbn;
     [|destruct (interrupt_answer w) as [[]|?]; cbn;
       [|destruct kp as [p|]; cbn;
         [destruct (interrupt_poll_answer w) as [[code|]|?]; cbn;
          [| destruct (sigint_answer w) as [[]|?]; cbn |]|]]]|];
    (split; [eexists; reflexivity|]; split; [reflexivity|]; left; split; reflexivity).
Qed.

Lemma released_session_ok (s s' : State) :
  session_ok s → slot_kept_or_released s s' → session_ok s'.
Proof.
  intros [Hwf Hone] [[Hc Hl] | (h & Hk & Hc & Hl)].
  - split.
    + intros j. rewrite Hc, Hl. apply Hwf.
    + intros j x. rewrite Hc, Hl. apply Hone.
  - split.
    + intros j. rewrite Hc. discriminate.
    + intros j x. rewrite Hc, Hl, list_lookup_alter. intros Hx Hrun. exfalso.
      destruct (decide (h = j)) as [->|Hne].
      * destruct (clients s !! j); [|discriminate]. injection Hx as <-. discriminate.
      * specialize (Hone j x Hx Hrun). congruence.
Qed.

Lemma set_process_session_ok (p : option Process) (s : State) :
  session_ok s → session_ok (set_process p s).
Proof. intros H. exact H. Qed.

Lemma run_command_session_ok (c : Command) (s : State) :
  session_ok s → session_ok (snd (run_command c s)).
Proof.
  intros Hok. destruct c as [w cf d | w cf | w code | info | stop | w | w]; cbn [run_command].
  - destruct (start_kernel_effect w cf d s)
      as (_ & [-> | (path & p & _ & _ & _ & _ & [-> | ->])]).
    + exact Hok.
    + apply set_process_session_ok, Hok.
    + apply connect_preserves_session_ok, set_process_session_ok, Hok.
  - apply connect_preserves_session_ok, Hok.
  - destruct (execute_code_effect w code s) as [r ->]. exact Hok.
  - destruct (kernel_status_effect info s) as [r ->]. exact Hok.
  - apply (released_session_ok s); [exact Hok | apply disconnect_kernel_effect].
  - apply (released_session_ok s); [exact Hok | apply shutdown_kernel_effect].
  - apply (released_session_ok s); [exact Hok | apply interrupt_kernel_effect].
Qed.

Lemma run_session_ok (commands : list Command) (s : State) :
  session_ok s → session_ok (run_session commands s).
Proof.
  revert s. induction commands as [|c rest IH]; intros s Hok; [exact Hok|].
  cbn [run_session]. apply IH, run_command_session_ok, Hok.
Qed.

Lemma initial_state_ok : session_ok initial_state.
Proof.
  split.
  - intros h Hh. discriminate Hh.
  - intros h c Hc. discriminate Hc.
Qed.

(** X19. In every state a session can reach from the initial state, by any
    sequence of tool calls and whatever the outside world answers, the
    connection slot refers to an existing client object and no client other
    than the stored one has running channels. *)
Theorem session_keeps_one_open_client (commands : list Command) :
  session_ok (run_session commands initial_state).
Proof.
  apply run_session_ok, initial_state_ok.
Qed.


(** X21. The process slot is written by [start_kernel] alone and never
    emptied: every other tool leaves it as it was, and once a process is
    tracked a process stays tracked through any sequence of tool calls. *)
Theorem process_slot_is_never_cleared (commands : list Command) (c : Command) (s : State) :
  (match c with
   | StartKernel _ _ _ => True
   | _ => kernel_process (snd (run_command c s)) = kernel_process s
   end)
  ∧ (is_Some (kernel_process s) → is_Some (kernel_process (run_session commands s))).
Proof.
  assert (Hone : ∀ c t, is_Some (kernel_process t) →
                        is_Some (kernel_process (snd (run_command c t)))).
  { intros c0 t Hsome.
    destruct c0 as [w cf d | w cf | w code | info | stop | w | w]; cbn [run_command].
    - destruct (start_kernel_effect w cf d t)
        as (_ & [-> | (path & p & _ & _ & _ & _ & [-> | ->])]).
      + exact Hsome.
      + eexists. reflexivity.
      + destruct (connect_effect (connect_answers w) (Some path) (set_process (Some p) t))
          as (_ & -> & _). eexists. reflexivity.
    - destruct (connect_effect w cf t) as (_ & -> & _). exact Hsome.
    - destruct (execute_code_effect w code t) as [r ->]. exact Hsome.
    - destruct (kernel_status_effect info t) as [r ->]. exact Hsome.
    - destruct (disconnect_kernel_effect stop t) as (_ & -> & _). exact Hsome.
    - destruct (shutdown_kernel_effect w t) as (_ & -> & _). exact Hsome.
    - destruct (interrupt_kernel_effect w t) as (_ & -> & _). exact Hsome. }
  split.
  - destruct c as [w cf d | w cf | w code | info | stop | w | w]; cbn [run_command].
    + exact I.
    + apply connect_effect.
    + destruct (execute_code_effect w code s) as [r ->]. reflexivity.
    + destruct (kernel_status_effect info s) as [r ->]. reflexivity.
    + apply disconnect_kernel_effect.
    + apply shutdown_kernel_effect.
    + apply interrupt_kernel_effect.
  - revert s. induction commands as [|c0 rest IH]; intros s Hsome; [exact Hsome|].
    cbn [run_session]. apply IH, Hone, Hsome.
Qed.

(** X22. [kernel_status] looks at the connection slot only: it reports
    "not connected" exactly when the slot is empty and otherwise a
    "Connected" report, with or without the endpoint, whatever
    [get_connection_info] answers; the state is left as it was. *)
Theorem kernel_status_reflects_slot (connection_info : result pyval) (s : State) :
  ∃ report,
    kernel_status connection_info s = (Ok report, s)
    ∧ (kernel_client s = None → report = CROSS ++ lit " Not connected to any kernel")
    ∧ (is_Some (kernel_client s) →
       is_prefix (CHECK ++ lit " Connected to kernel") report = true).
Proof.
  unfold kernel_status. run_tool. destruct (kernel_client s) as [h|].
  - assert (Hsome : ∀ report : pystr,
               is_prefix (CHECK ++ lit " Connected to kernel") report = true →
               (Some h = None → report = CROSS ++ lit " Not connected to any kernel")
               ∧ (is_Some (Some h) →
                  is_prefix (CHECK ++ lit " Connected to kernel") report = true)).
    { intros report Hp. split; [discriminate | intros _; exact Hp]. }
    destruct connection_info as [info|]; cbn;
      [|eexists; split; [reflexivity | apply Hsome; reflexivity]].
    destruct (py_getitem info (lit "ip")); cbn;
      [|eexists; split; [reflexivity | apply Hsome; reflexivity]].
    destruct (py_getitem info (lit "shell_port")); cbn;
      eexists; (split; [reflexivity | apply Hsome; reflexivity]).
  - eexists. split; [reflexivity|]. split; [reflexivity|]. intros [x Hx]. discriminate Hx.
Qed.

(** X23. Nothing is left open by a disconnect: in every state a session can
    reach, a [disconnect_kernel] whose [stop_channels] returns (also when
    there was nothing to stop) leaves the connection slot empty and no
    client object with running channels. *)
Theorem disconnect_leaves_nothing_open (commands : list Command) (h : nat) (c : Client) :
  let s := run_session commands initial_state in
  let s' := snd (disconnect_kernel (Ok tt) s) in
  kernel_client s' = None
  ∧ (clients s' !! h = Some c → channels_running c = false).
Proof.
  intros s s'. subst s'.
  destruct (run_session_ok commands initial_state initial_state_ok) as [_ Hone].
  fold s in Hone. pose proof (disconnect_kernel_cases (Ok tt) s) as Hcases.
  destruct (kernel_client s) as [stored|] eqn:Hk; rewrite Hcases; cbn.
  - split; [reflexivity|]. rewrite list_lookup_alter. intros Hc.
    destruct (channels_running c) eqn:Hrun; [exfalso | reflexivity].
    destruct (decide (stored = h)) as [->|Hne].
    + destruct (clients s !! h); [|discriminate]. injection Hc as <-. discriminate.
    + specialize (Hone h c Hc Hrun). congruence.
  - split; [exact Hk|]. intros Hc.
    destruct (channels_running c) eqn:Hrun; [exfalso | reflexivity].
    specialize (Hone h c Hc Hrun). congruence.
Qed.

(** X24. [resolve_connection_file] never answers the empty path as long as
    the bundled default is not empty: an empty explicit argument and an
    empty value of the variable are passed over like absent ones. *)
Theorem resolve_connection_file_nonempty (e : ResolveEnv) (connection_file : option pystr) :
  package_default e ≠ [] → resolve_connection_file e connection_file ≠ [].
Proof.
  intros Hdefault. unfold resolve_connection_file, if_set.
  destruct connection_file as [[|c f]|]; try discriminate;
    destruct (env_IPYTHON_MCP_CONNECTION e) as [[|d v]|]; try discriminate; exact Hdefault.
Qed.
End Server.

(** ** The tools on concrete inputs *)

Example execute_code_busy :
  fst (execute_code example_repr example_exc_text busy_world (lit "print('hello'); 42")
         connected_state)
  = Ok (lit "hello" ++ NL ++ lit "42").
Proof. vm_compute. reflexivity. Qed.

Example drain_error_fragment :
  drain example_repr (lit "req-3") (iopub_answers failing_world) []
  = [PStr (lit "before the error");
     PStr (CROSS ++ lit " ZeroDivisionError: division by zero" ++ NL
           ++ lit "ZeroDivisionError" ++ NL ++ lit "----> 1 1/0")].
Proof. vm_compute. reflexivity. Qed.

Example execute_code_not_connected :
  execute_code example_repr example_exc_text busy_world (lit "1") initial_state
  = (Ok NOT_CONNECTED_EXECUTE, initial_state).
Proof. reflexivity. Qed.

Example execute_code_reply_timeout :
  fst (execute_code example_repr example_exc_text
         {| execute_answer := fun _ => Ok (lit "req-5");
            shell_answer := Raise (LibraryError []);
            iopub_answers := [] |}
         (lit "while True: pass") connected_state)
  = Ok (CROSS ++ lit " Execution failed: ").
Proof. vm_compute. reflexivity. Qed.

Example reconnect_replaces_client :
  let outcome := connect_to_kernel example_repr example_exc_text false
                   (connect_world true (Ok descriptor) (Ok tt) (Ok tt)) None connected_state in
  fst outcome
    = Ok (CHECK ++ lit " Connected to IPython kernel at 127.0.0.1:50001" ++ NL
          ++ FOLDER ++ lit " Connection file: /home/u/from_env.json" ++ NL
          ++ KEY ++ lit " Using key: a0436f6c...")
  ∧ kernel_client (snd outcome) = Some 1
  ∧ calls (snd outcome)
    = [StopChannels 0; NewClient 1; LoadConnectionInfo 1; StartChannels 1; WaitForReady 1].
Proof. vm_compute. repeat split; reflexivity. Qed.

Example shutdown_kills_live_process :
  let w := {| shutdown_answer := Raise SOCKET_ERROR;
              poll_answer := Ok None;
              terminate_answer := Ok tt;
              wait5_answer := Raise (TimeoutExpired (lit "timed out after 5 seconds"));
              kill_answer := Ok tt;
              wait_answer := Ok tt;
              disconnect_answer := Ok tt |} in
  let outcome := shutdown_kernel example_exc_text false w connected_state in
  fst outcome = Ok SHUTDOWN_UNIX
  ∧ calls (snd outcome)
    = [Shutdown 0; Terminate; Wait (Some 5%Z); Kill; Wait None; StopChannels 0].
Proof. vm_compute. split; reflexivity. Qed.

Example interrupt_falls_back_to_signal :
  let w := {| interrupt_answer := Raise SOCKET_ERROR;
              interrupt_poll_answer := Ok None;
              sigint_answer := Ok tt |} in
  let outcome := interrupt_kernel example_repr example_exc_text false w connected_state in
  fst outcome = Ok (CHECK ++ lit " Sent SIGINT to kernel (PID: 4242) via subprocess")
  ∧ calls (snd outcome) = [Interrupt 0; SendSigint]
  ∧ fst (interrupt_kernel example_repr example_exc_text true w connected_state)
    = Ok (CROSS ++ lit " Interrupt not supported on Windows - press Ctrl+C in the kernel window to interrupt execution").
Proof. vm_compute. repeat split; reflexivity. Qed.

Example strip_and_remove :
  strip (lit "  a b  ") = lit "a b"
  ∧ strip (9%N :: 10%N :: [160%N]) = []
  ∧ remove_all (lit "ab") (lit "xababyabab-aab") = lit "xy-a".
Proof. vm_compute. repeat split; reflexivity. Qed.

(** ** Witnesses and counterexamples *)

Lemma resolve_connection_file_precedence_witness :
  resolve_connection_file example_env (Some (lit "/tmp/explicit.json")) = lit "/tmp/explicit.json"
  ∧ resolve_connection_file example_env (Some []) = lit "/home/u/from_env.json"
  ∧ resolve_connection_file bare_env None = lit "/pkg/ipython_mcp/default_connection.json".
Proof.
  split; [|split].
  - apply (proj1 (resolve_connection_file_precedence example_env
                    (Some (lit "/tmp/explicit.json"))) _ eq_refl).
    discriminate.
  - apply (proj1 (proj2 (resolve_connection_file_precedence example_env (Some [])))).
    + right. reflexivity.
    + reflexivity.
    + discriminate.
  - apply (proj2 (proj2 (resolve_connection_file_precedence bare_env None))).
    + left. reflexivity.
    + left. reflexivity.
Defined.

Lemma disconnect_kernel_idempotent_witness :
  let s1 := snd (disconnect_kernel example_exc_text (Ok tt) connected_state) in
  fst (disconnect_kernel example_exc_text (Ok tt) connected_state) = Ok DISCONNECTED
  ∧ kernel_client s1 = None
  ∧ disconnect_kernel example_exc_text (Raise SOCKET_ERROR) s1 = (Ok DISCONNECTED, s1).
Proof.
  apply (proj1 (proj2 (disconnect_kernel_idempotent_when_stop_returns example_exc_text
                         (Ok tt) (Raise SOCKET_ERROR) connected_state))).
  left. reflexivity.
Defined.

(** C7 as stated fails when [stop_channels] raises: the first call reports
    the error and keeps the handle, and a second call that succeeds then
    changes the state. *)
Lemma disconnect_kernel_not_idempotent :
  let first := disconnect_kernel example_exc_text (Raise SOCKET_ERROR) connected_state in
  let second := disconnect_kernel example_exc_text (Ok tt) (snd first) in
  fst first = Ok (CROSS ++ lit " Error during disconnection: Socket operation on non-socket")
  ∧ kernel_client (snd first) ≠ None
  ∧ snd second ≠ snd first.
Proof.
  vm_compute. repeat split; discriminate.
Qed.

Lemma connect_failed_load_keeps_session_witness :
  (∃ detail, connect_to_kernel example_repr example_exc_text false
               (connect_world false (Ok descriptor) (Ok tt) (Ok tt))
               (Some (lit "/tmp/missing.json")) connected_state
             = (Ok (CROSS ++ detail), connected_state))
  ∧ (∃ detail, connect_to_kernel example_repr example_exc_text false
                 (connect_world true (Raise (LibraryError (lit "Expecting value: line 1 column 1 (char 0)")))
                    (Ok tt) (Ok tt))
                 (Some (lit "/tmp/broken.json")) connected_state
               = (Ok (CROSS ++ detail), connected_state)).
Proof.
  split.
  - apply (connect_failed_load_keeps_session example_repr example_exc_text false
             _ _ _ (lit "/tmp/missing.json")); [reflexivity|].
    left. reflexivity.
  - apply (connect_failed_load_keeps_session example_repr example_exc_text false
             _ _ _ (lit "/tmp/broken.json")); [reflexivity|].
    right. split; [reflexivity|]. eexists. reflexivity.
Defined.

Lemma connect_closes_prior_first_witness :
  let w := connect_world true (Ok descriptor) (Ok tt) (Raise NOT_READY) in
  let s' := snd (connect_to_kernel example_repr example_exc_text false w None connected_state) in
  kernel_client connected_state = Some 0
  ∧ StartChannels 1 ∈ new_calls connected_state s'
  ∧ (∃ rest, calls s' = calls connected_state
                         ++ StopChannels 0 :: NewClient 1 :: LoadConnectionInfo 1
                         :: StartChannels 1 :: rest)
  ∧ (∃ c, clients s' !! 0 = Some c ∧ channels_running c = false)
  ∧ kernel_client s' = Some 1
  ∧ at_most_one_open s'.
Proof.
  intros w s'.
  assert (Hin : StartChannels 1 ∈ new_calls connected_state s').
  { vm_compute. do 3 apply list_elem_of_further. apply list_elem_of_here. }
  assert (Hone : at_most_one_open connected_state).
  { intros h c Hl _. destruct h as [|h]; [reflexivity|]. discriminate Hl. }
  destruct (connect_closes_prior_first example_repr example_exc_text false
              w None connected_state 0 eq_refl (ex_intro _ _ eq_refl)) as [Horder Hinv].
  destruct (Horder 1 Hin) as (_ & _ & _ & Hcalls & Hstopped & Hslot).
  split; [reflexivity|]. split; [exact Hin|]. split; [exact Hcalls|].
  split; [exact Hstopped|]. split; [exact Hslot|]. exact (Hinv Hone).
Defined.

(** C3. A readiness wait that times out: the failure is reported, yet the
    client just created stays in the connection slot with its channels
    running, and [kernel_status] then reports a connection. *)
Theorem connect_timeout_keeps_half_open_handle :
  let w := connect_world true (Ok descriptor) (Ok tt) (Raise NOT_READY) in
  let outcome := connect_to_kernel example_repr example_exc_text false w
                   (Some (lit "/tmp/kernel.json")) initial_state in
  fst outcome
    = Ok (CROSS ++ lit " Failed to connect to kernel: Kernel didn't respond in 5 seconds")
  ∧ kernel_client (snd outcome) = Some 0
  ∧ clients (snd outcome) !! 0
    = Some {| channels_running := true; loaded_info := Some descriptor |}
  ∧ fst (kernel_status example_repr (Ok descriptor) (snd outcome))
    = Ok (CHECK ++ lit " Connected to kernel at 127.0.0.1:50001").
Proof.
  vm_compute. repeat split; reflexivity.
Qed.

Lemma shutdown_after_process_exit_witness :
  let w := exited_world (Raise SOCKET_ERROR) (Ok tt) in
  let s' := snd (shutdown_kernel example_exc_text false w connected_state) in
  poll_answer w = Ok (Some 0%Z)
  ∧ fst (shutdown_kernel example_exc_text false w connected_state) = Ok CONNECTIONS_CLOSED
  ∧ kernel_process s' = Some {| pid := 4242 |}
  ∧ kernel_client s' = None
  ∧ new_calls connected_state s' = [Shutdown 0; StopChannels 0].
Proof.
  intros w s'. split; [reflexivity|].
  exact (shutdown_after_process_exit example_exc_text false w connected_state
           0 {| pid := 4242 |} 0%Z eq_refl eq_refl eq_refl).
Defined.

(** C4 as stated fails on a session whose worker has exited: the process
    slot is never emptied; when the protocol request returns the report is
    the graceful one; when [stop_channels] raises the handle stays. *)
Lemma shutdown_does_not_clear_process :
  let s := connected_state in
  let closed := shutdown_kernel example_exc_text false
                  (exited_world (Raise SOCKET_ERROR) (Ok tt)) s in
  let graceful := shutdown_kernel example_exc_text false (exited_world (Ok tt) (Ok tt)) s in
  let stuck := shutdown_kernel example_exc_text false
                 (exited_world (Raise SOCKET_ERROR) (Raise SOCKET_ERROR)) s in
  (fst closed = Ok CONNECTIONS_CLOSED ∧ kernel_process (snd closed) ≠ None)
  ∧ (fst graceful = Ok SHUTDOWN_GRACEFUL ∧ fst graceful ≠ Ok CONNECTIONS_CLOSED)
  ∧ (fst stuck = Ok CONNECTIONS_CLOSED ∧ kernel_client (snd stuck) ≠ None).
Proof.
  vm_compute. repeat split; discriminate.
Qed.

Lemma execute_code_ignores_foreign_witness :
  let code := lit "print('hello'); 42" in
  execute_answer busy_world code = Ok (lit "req-2")
  ∧ (∀ fragment,
       fragment ∈ drain example_repr (lit "req-2") (iopub_answers busy_world) [] →
       ∃ msg, Ok msg ∈ iopub_answers busy_world
              ∧ parent_msg_id msg = Ok (PStr (lit "req-2"))
              ∧ handle_message example_repr (lit "req-2") msg = Ok (Append fragment))
  ∧ execute_code example_repr example_exc_text busy_world code connected_state
    = execute_code example_repr example_exc_text
        (with_iopub busy_world (without_foreign (lit "req-2") (iopub_answers busy_world)))
        code connected_state.
Proof.
  intros code. split; [reflexivity|].
  exact (execute_code_ignores_foreign example_repr example_exc_text busy_world code
           (lit "req-2") connected_state eq_refl).
Defined.

Lemma execute_code_reply_error_wins_witness :
  let code := lit "1/0" in
  reply_status reply_error = Ok (PStr (lit "error"))
  ∧ drain example_repr (lit "req-3") (iopub_answers failing_world) [] ≠ []
  ∧ ∃ error_info,
      py_getitem reply_error (lit "content") = Ok (PDict error_info)
      ∧ execute_code example_repr example_exc_text failing_world code connected_state
        = (Ok (CROSS ++ lit " "
               ++ py_str example_repr (dict_get error_info (lit "ename") (PStr (lit "Error")))
               ++ lit ": "
               ++ py_str example_repr (dict_get error_info (lit "evalue") (PStr []))),
           connected_state).
Proof.
  intros code. split; [reflexivity|]. split; [vm_compute; discriminate|].
  exact (execute_code_reply_error_wins example_repr example_exc_text failing_world code
           (lit "req-3") connected_state 0 reply_error eq_refl eq_refl eq_refl eq_refl).
Defined.

Lemma execute_code_no_output_witness :
  let code := lit "print('   ')" in
  forallb (quiet (lit "req-4")) (iopub_answers silent_world) = true
  ∧ execute_code example_repr example_exc_text silent_world code connected_state
    = (Ok NO_OUTPUT, connected_state).
Proof.
  intros code. split; [vm_compute; reflexivity|].
  apply (execute_code_no_output example_repr example_exc_text silent_world code
           (lit "req-4") connected_state 0 reply_ok (PStr (lit "ok"))).
  - reflexivity.
  - reflexivity.
  - reflexivity.
  - vm_compute. reflexivity.
  - vm_compute. reflexivity.
  - vm_compute. reflexivity.
Defined.

(** ** More runs and witnesses *)

Example start_kernel_started :
  let outcome := start_kernel example_repr example_exc_text false
                   (start_world None [] ready_connect_world) None false initial_state in
  fst outcome
    = Ok (CHECK ++ lit " Started IPython kernel (PID: 4711)" ++ NL
          ++ FOLDER ++ lit " Using connection file: /home/u/from_env.json" ++ NL
          ++ CHECK ++ lit " Connected to IPython kernel at 127.0.0.1:50001" ++ NL
          ++ FOLDER ++ lit " Connection file: /home/u/from_env.json" ++ NL
          ++ KEY ++ lit " Using key: a0436f6c...")
  ∧ kernel_process (snd outcome) = Some {| pid := 4711 |}
  ∧ kernel_client (snd outcome) = Some 0.
Proof. vm_compute. repeat split; reflexivity. Qed.

Example start_kernel_windows_dry_run :
  start_kernel example_repr example_exc_text true
    (start_world None [] ready_connect_world) (Some (lit "C:/k.json")) true connected_state
  = (Ok (lit "Would run Windows batch file with content:" ++ NL
         ++ lit "@echo Starting IPython MCP server..." ++ NL
         ++ DQUOTE ++ lit "C:/Python311/python.exe" ++ DQUOTE
         ++ lit " -m IPython kernel --ConnectionFileMixin.connection_file="
         ++ DQUOTE ++ lit "C:/k.json" ++ DQUOTE
         ++ lit " --InteractiveShellApp.extensions=" ++ DQUOTE ++ lit "['autoreload']" ++ DQUOTE
         ++ lit " --InteractiveShellApp.exec_lines=" ++ DQUOTE ++ lit "['%autoreload 2']"
         ++ DQUOTE),
     connected_state).
Proof. vm_compute. reflexivity. Qed.

Lemma stream_fragment_is_trimmed_witness :
  let msg := stream_message (lit "req-2") (10%N :: lit "hello" ++ [10%N]) in
  handle_message example_repr (lit "req-2") msg = Ok (Append (PStr (lit "hello")))
  ∧ ∃ content text pre post t,
      py_get msg (lit "content") (PDict []) = Ok content
      ∧ py_get content (lit "text") (PStr []) = Ok (PStr text)
      ∧ PStr (lit "hello") = PStr t ∧ t ≠ []
      ∧ text = pre ++ t ++ post
      ∧ forallb py_isspace pre = true ∧ forallb py_isspace post = true
      ∧ (∀ c, head t = Some c → py_isspace c = false)
      ∧ (∀ c, head (rev t) = Some c → py_isspace c = false).
Proof.
  intros msg. split; [reflexivity|].
  apply (stream_fragment_is_trimmed example_repr (lit "req-2") msg); reflexivity.
Defined.

Lemma drain_ignores_what_follows_idle_witness :
  drain example_repr (lit "req-2") (iopub_answers busy_world) []
  = drain example_repr (lit "req-2") (firstn 5 (iopub_answers busy_world)) [].
Proof.
  exact (drain_ignores_what_follows_idle example_repr (lit "req-2")
           (firstn 5 (iopub_answers busy_world))
           [Ok (stream_message (lit "req-2") (lit "too late"))]
           (Ok (status_message (lit "req-2") (lit "idle"))) [] eq_refl).
Defined.


Lemma execute_code_joins_output_witness :
  let code := lit "print('hello'); 42" in
  existsb (odd_result (lit "req-2")) (iopub_answers busy_world) = false
  ∧ ∃ texts,
      drain example_repr (lit "req-2") (iopub_answers busy_world) [] = map PStr texts
      ∧ Forall (λ t, t ≠ []) texts
      ∧ execute_code example_repr example_exc_text busy_world code connected_state
        = (Ok (match texts with
               | [] => NO_OUTPUT
               | _ :: _ => str_join NL texts
               end), connected_state).
Proof.
  intros code. split; [vm_compute; reflexivity|].
  apply (execute_code_joins_output example_repr example_exc_text busy_world code
           (lit "req-2") connected_state 0 reply_ok (PStr (lit "ok")));
    vm_compute; reflexivity.
Defined.

Lemma execute_code_odd_result_fails_witness :
  execute_code example_repr example_exc_text numeric_world (lit "6 * 7") connected_state
  = (Ok (CROSS ++ lit " Execution failed: "
         ++ exn_str example_exc_text (TypeError (JoinItem 1) (PInt 42))), connected_state)
  ∧ exn_str example_exc_text (TypeError (JoinItem 1) (PInt 42))
    = lit "sequence item 1: expected str instance, int found".
Proof.
  split; [|vm_compute; reflexivity].
  apply (execute_code_odd_result_fails example_repr example_exc_text numeric_world
           (lit "6 * 7") (lit "req-6") connected_state 0 reply_ok (PStr (lit "ok"))
           [lit "computing"] (PInt 42) [PStr (lit "done")]);
    try (vm_compute; reflexivity).
  intros t Ht. discriminate Ht.
Defined.

Lemma shutdown_always_disconnects_witness :
  let w := {| shutdown_answer := Raise SOCKET_ERROR;
              poll_answer := Ok None;
              terminate_answer := Ok tt;
              wait5_answer := Raise (TimeoutExpired (lit "timed out after 5 seconds"));
              kill_answer := Raise (LibraryError (lit "Permission denied"));
              wait_answer := Ok tt;
              disconnect_answer := Ok tt |} in
  let s' := snd (shutdown_kernel example_exc_text false w connected_state) in
  kernel_client connected_state = Some 0
  ∧ (∃ report, fst (shutdown_kernel example_exc_text false w connected_state) = Ok report)
  ∧ kernel_process s' = kernel_process connected_state
  ∧ (∃ before, new_calls connected_state s' = before ++ [StopChannels 0]
               ∧ Forall (λ c, c ≠ StopChannels 0) before)
  ∧ kernel_client s' = None
  ∧ clients s' = alter stopped 0 (clients connected_state).
Proof.
  intros w s'. split; [reflexivity|].
  exact (shutdown_always_disconnects example_exc_text false w connected_state 0 eq_refl).
Defined.

Lemma connected_report_shows_key_prefix_witness :
  connected_report example_repr false descriptor (lit "/tmp/k.json")
  = Ok (CHECK ++ lit " Connected to IPython kernel at 127.0.0.1:50001" ++ NL
        ++ FOLDER ++ lit " Connection file: /tmp/k.json" ++ NL
        ++ KEY ++ lit " Using key: a0436f6c...")
  ∧ connected_report example_repr false descriptor_other_key (lit "/tmp/k.json")
    = connected_report example_repr false descriptor (lit "/tmp/k.json").
Proof.
  destruct (connected_report_shows_key_prefix example_repr false descriptor
              (PStr (lit "127.0.0.1")) (PInt 50001) (lit "/tmp/k.json")
              (lit "a0436f6c-1916-498b-8eb9-e81ab9368e84") eq_refl eq_refl eq_refl)
    as [Hreport Hsame].
  split.
  - rewrite Hreport. vm_compute. reflexivity.
  - apply (Hsame descriptor_other_key (lit "a0436f6c-ffff-0000-ffff-000000000000"));
      reflexivity.
Defined.

Lemma start_kernel_connects_witness :
  let w := start_world (Some 1%Z) (lit "zmq.error.ZMQError: Address already in use")
             ready_connect_world in
  let path := lit "/home/u/from_env.json" in
  let connected :=
    connect_to_kernel example_repr example_exc_text false (connect_answers w) (Some path)
      (set_process (Some {| pid := 4711 |}) initial_state) in
  spawn_answer false w path = Ok {| pid := 4711 |}
  ∧ ∃ connect_result,
      fst connected = Ok connect_result
      ∧ start_kernel example_repr example_exc_text false w None false initial_state
        = (Ok (ALREADY_RUNNING ++ NL ++ connect_result), snd connected).
Proof.
  intros w path connected. split; [reflexivity|].
  destruct (start_kernel_connects example_repr example_exc_text false w None initial_state
              path {| pid := 4711 |} eq_refl eq_refl eq_refl)
    as (connect_result & Hresult & _ & Hsoft).
  exists connect_result. split; [exact Hresult|].
  apply (Hsoft 1%Z (Some []) (Some (lit "zmq.error.ZMQError: Address already in use"))
           [] (lit "zmq.error.ZMQError: Address already in use"));
    first [reflexivity | vm_compute; reflexivity].
Defined.

Lemma start_kernel_reports_exit_witness :
  let w := start_world (Some 1%Z) (lit "ModuleNotFoundError: No module named 'IPython'")
             ready_connect_world in
  start_kernel example_repr example_exc_text false w None false connected_state
  = (Ok (CROSS ++ lit " Kernel failed to start" ++ NL
         ++ lit "Exit code: " ++ py_str example_repr (PInt 1)
         ++ (if nonempty [] then NL ++ lit "Stdout: " ++ [] else [])
         ++ (if nonempty (lit "ModuleNotFoundError: No module named 'IPython'")
             then NL ++ lit "Stderr: " ++ lit "ModuleNotFoundError: No module named 'IPython'"
             else [])),
     set_process (Some {| pid := 4711 |}) connected_state).
Proof.
  intros w.
  apply (start_kernel_reports_exit example_repr example_exc_text false w None connected_state
           (lit "/home/u/from_env.json") {| pid := 4711 |} 1%Z (Some [])
           (Some (lit "ModuleNotFoundError: No module named 'IPython'")));
    first [reflexivity | vm_compute; reflexivity].
Defined.

Lemma resolve_connection_file_nonempty_witness :
  package_default bare_env ≠ []
  ∧ resolve_connection_file bare_env (Some []) ≠ [].
Proof.
  split; [discriminate|].
  apply (resolve_connection_file_nonempty bare_env (Some [])). discriminate.
Defined.
